(** * Transform execution engine of chainalytic (zone public-icon)

    Shallow embedding of the two aggregator transforms

      - [transform_registry/stake_history.py]        (module [StakeHistory])
      - [transform_registry/recent_stake_wallets.py] (module [RecentStakeWallets])

    and the properties of their [execute] entry points.

    Modelling conventions.
      - The LevelDB cache of a transform is a record with one field per
        reserved key and a finite map for the per-address entries; a field
        is [None] when the key was never written.  Every value the code
        writes is the [str]/[json.dumps] image of a number or a dict and so
        is never the empty byte string: the truthiness tests [if value:]
        of the source are tests for presence.  Wallet addresses are ICON
        addresses ("hx...") and never collide with a reserved key.
      - Python [float]/[int] amounts are exact integers ([Z]); rounding of
        the floating point operations is not modelled.
      - A Python exception is the outcome [Raised]; writes made with
        [cache_db.put] before the exception stay in the store, as they do
        in LevelDB.
      - [execution_time] (wall clock) is left out of the output. *)

From stdpp Require Import base option list gmap strings.
From Stdlib Require Import ZArith Lia.

Open Scope Z_scope.

(** ** Exceptions and the state monad of a transform *)

Inductive exn : Type :=
| KeyError
| AttributeError
| TypeError.

Inductive outcome (A : Type) : Type :=
| Returned (a : A)
| Raised (e : exn).

Arguments Returned {A} a.
Arguments Raised {A} e.

Definition M (S A : Type) : Type := S -> outcome A * S.

Definition ret {S A : Type} (a : A) : M S A := fun s => (Returned a, s).

Definition bind {S A B : Type} (m : M S A) (f : A -> M S B) : M S B :=
  fun s =>
    match m s with
    | (Returned a, s') => f a s'
    | (Raised e, s') => (Raised e, s')
    end.

Definition raise {S A : Type} (e : exn) : M S A := fun s => (Raised e, s).

Definition gets {S A : Type} (f : S -> A) : M S A := fun s => (Returned (f s), s).

Definition modify {S : Type} (f : S -> S) : M S unit := fun s => (Returned tt, f s).

Notation "'do' x <- m ; k" := (bind m (fun x => k))
  (at level 10, x name, m at level 100, k at level 200, only parsing).

(** ** Python dictionaries (insertion ordered, string keys) *)

Definition address : Type := string.

Module PyDict.

Definition t (V : Type) : Type := list (address * V).

(** [d.get(k)] / [d[k]] *)
Fixpoint get {V : Type} (k : address) (d : t V) : option V :=
  match d with
  | [] => None
  | (k', v) :: d' => if String.eqb k' k then Some v else get k d'
  end.

(** [list(d)] *)
Definition keys {V : Type} (d : t V) : list address := map fst d.

(** [d.pop(k)]: no entry for [k] is left *)
Fixpoint pop {V : Type} (k : address) (d : t V) : t V :=
  match d with
  | [] => []
  | (k', v) :: d' => if String.eqb k' k then pop k d' else (k', v) :: pop k d'
  end.

(** [d[k] = v]: an existing key keeps its position, a new one goes last *)
Fixpoint set {V : Type} (k : address) (v : V) (d : t V) : t V :=
  match d with
  | [] => [(k, v)]
  | (k', v') :: d' =>
      if String.eqb k' k then (k', v) :: d' else (k', v') :: set k v d'
  end.

End PyDict.

(** The request sent to the warehouse through [rpc_client.call_async]. *)
Record rpc_call : Type := RpcCall {
  call_id : string;
  api_id : option string;
  rpc_height : Z;
  rpc_transform_id : string
}.

(** ** stake_history.py *)

Module StakeHistory.

(** A per-address entry ["{stake_value}:{unstaking_value}:{unlock_height}"]. *)
Record wallet : Type := Wallet {
  stake_value : Z;
  unstaking_value : Z;
  unlock_height : Z
}.

(** [self.transform_cache_db] *)
Record cache_db : Type := CacheDb {
  prev_state_height : option Z;          (* b'prev_state_height' *)
  prev_total_staking : option Z;         (* b'prev_total_staking' *)
  prev_total_unstaking : option Z;       (* b'prev_total_unstaking' *)
  prev_total_staking_wallets : option Z; (* b'prev_total_staking_wallets' *)
  unstaking : option (PyDict.t Z);       (* b'unstaking' *)
  wallets : gmap address wallet          (* addr.encode() *)
}.

(** What [self] refers to: the cache, the ICON state database read by
    [_get_total_supply] ([None] when it cannot be read) and the requests
    sent to the warehouse so far. *)
Record world : Type := World {
  transform_cache_db : cache_db;
  icon_state_db : option Z;
  warehouse : list rpc_call
}.

Definition empty_db : cache_db := CacheDb None None None None None ∅.

Definition with_db (f : cache_db -> cache_db) (w : world) : world :=
  World (f (transform_cache_db w)) (icon_state_db w) (warehouse w).

(** [cache_db.put] of each kind of key; every call is a write of its own. *)
Definition put_wallet (addr : address) (v : wallet) : M world unit :=
  modify (with_db (fun c =>
    CacheDb (prev_state_height c) (prev_total_staking c) (prev_total_unstaking c)
            (prev_total_staking_wallets c) (unstaking c) (<[addr := v]> (wallets c)))).

Definition put_unstaking (d : PyDict.t Z) : M world unit :=
  modify (with_db (fun c =>
    CacheDb (prev_state_height c) (prev_total_staking c) (prev_total_unstaking c)
            (prev_total_staking_wallets c) (Some d) (wallets c))).

Definition put_prev_state_height (h : Z) : M world unit :=
  modify (with_db (fun c =>
    CacheDb (Some h) (prev_total_staking c) (prev_total_unstaking c)
            (prev_total_staking_wallets c) (unstaking c) (wallets c))).

Definition put_prev_total_staking (v : Z) : M world unit :=
  modify (with_db (fun c =>
    CacheDb (prev_state_height c) (Some v) (prev_total_unstaking c)
            (prev_total_staking_wallets c) (unstaking c) (wallets c))).

Definition put_prev_total_unstaking (v : Z) : M world unit :=
  modify (with_db (fun c =>
    CacheDb (prev_state_height c) (prev_total_staking c) (Some v)
            (prev_total_staking_wallets c) (unstaking c) (wallets c))).

Definition put_prev_total_staking_wallets (v : Z) : M world unit :=
  modify (with_db (fun c =>
    CacheDb (prev_state_height c) (prev_total_staking c) (prev_total_unstaking c)
            (Some v) (unstaking c) (wallets c))).

Definition cache_get {A : Type} (field : cache_db -> A) : M world A :=
  gets (fun w => field (transform_cache_db w)).

(** [json.loads(cache_db.get(b'unstaking'))], [{}] when the key is absent *)
Definition load_unstaking : M world (PyDict.t Z) :=
  cache_get (fun c => default [] (unstaking c)).

(** [rpc_client.call_async(self.warehouse_endpoint, ...)] *)
Definition call_async (r : rpc_call) : M world unit :=
  modify (fun w => World (transform_cache_db w) (icon_state_db w) (warehouse w ++ [r])).

(** [_get_total_supply]: fails when the state database has no readable
    [total_supply]. *)
Definition _get_total_supply : M world Z :=
  fun w =>
    match icon_state_db w with
    | Some s => (Returned s, w)
    | None => (Raised TypeError, w)
    end.

(** The running aggregates of the loop:
    [total_staking], [total_unstaking], [total_staking_wallets]. *)
Record totals : Type := Totals {
  total_staking : Z;
  total_unstaking : Z;
  total_staking_wallets : Z
}.

Record output : Type := Output {
  out_height : Z;
  data : totals
}.

Section Transform.

(** [self.transform_id] and the chain-policy formula [unlock_period]
    (computed by iconservice, outside this repository). *)
Variable transform_id : string.
Variable unlock_period : Z -> Z -> Z.

(** Lines 83-90: the loop of the expiry cleanup over [list(unstaking_addresses)].
    [addrs] is the snapshot of the keys taken before the loop.  The keys of
    a Python dict are distinct, so [unstaking_addresses[addr]] finds every
    key of the snapshot; on a list with a repeated key the second visit
    raises [KeyError] here.  [addr_data.split] raises [AttributeError] when
    the address has no record. *)
Fixpoint cleanup_expired (height : Z) (addrs : list address)
    (unstaking_addresses : PyDict.t Z) : M world (PyDict.t Z) :=
  match addrs with
  | [] => ret unstaking_addresses
  | addr :: addrs' =>
      match PyDict.get addr unstaking_addresses with
      | None => raise KeyError
      | Some h =>
          if h <=? height then
            let unstaking_addresses := PyDict.pop addr unstaking_addresses in
            do addr_data <- cache_get (fun c => wallets c !! addr) ;
            match addr_data with
            | None => raise AttributeError
            | Some w =>
                do _ <- put_wallet addr (Wallet (stake_value w) 0 0) ;
                cleanup_expired height addrs' unstaking_addresses
            end
          else cleanup_expired height addrs' unstaking_addresses
      end
  end.

(** Lines 100-158: the body of the loop over [set_stake_wallets]. *)
Definition set_stake (height prev_total_staking : Z) (addr : address)
    (cur_stake_value : Z) (t : totals) : M world totals :=
  do addr_data <- cache_get (fun c => wallets c !! addr) ;
  let prev :=
    match addr_data with
    | Some w => w
    | None => Wallet 0 0 0
    end in
  let prev_stake_value := stake_value prev in
  let prev_unstaking_value := unstaking_value prev in
  let total_staking_wallets :=
    if (prev_stake_value =? 0) && (0 <? cur_stake_value)
    then total_staking_wallets t + 1
    else if (0 <? prev_stake_value) && (cur_stake_value =? 0)
         then total_staking_wallets t - 1
         else total_staking_wallets t in
  do branch <-
    (if cur_stake_value <? prev_stake_value then
       (* Unstake *)
       let cur_unstaking_value :=
         if 0 <? prev_unstaking_value
         then prev_unstaking_value + (prev_stake_value - cur_stake_value)
         else prev_stake_value - cur_stake_value in
       do total_supply <- _get_total_supply ;
       ret (cur_unstaking_value,
            height + unlock_period prev_total_staking total_supply)
     else
       (* Restake *)
       let cur_unstaking_value :=
         if 0 <? prev_unstaking_value
         then prev_unstaking_value - (cur_stake_value - prev_stake_value)
         else 0 in
       ret (cur_unstaking_value, unlock_height prev)) ;
  let settled := fst branch <=? 0 in
  let cur_unstaking_value := if settled then 0 else fst branch in
  let unlock_height := if settled then 0 else snd branch in
  do _ <- put_wallet addr (Wallet cur_stake_value cur_unstaking_value unlock_height) ;
  do _ <-
    (if unlock_height =? 0 then ret tt
     else
       do unstaking_addresses <- load_unstaking ;
       put_unstaking (PyDict.set addr unlock_height unstaking_addresses)) ;
  ret (Totals (total_staking t - prev_stake_value + cur_stake_value)
              (total_unstaking t - prev_unstaking_value + cur_unstaking_value)
              total_staking_wallets).

(** Line 99: [for addr in set_stake_wallets], in the order of the dict. *)
Fixpoint set_stake_wallets (height prev_total_staking : Z)
    (input_data : list (address * Z)) (t : totals) : M world totals :=
  match input_data with
  | [] => ret t
  | (addr, cur_stake_value) :: rest =>
      do t' <- set_stake height prev_total_staking addr cur_stake_value t ;
      set_stake_wallets height prev_total_staking rest t'
  end.

(** Lines 62-174: what [execute] does once the height was accepted. *)
Definition process_block (height : Z) (input_data : list (address * Z))
    : M world (option output) :=
  do prev_total_staking <- cache_get (fun c => default 0 (prev_total_staking c)) ;
  do prev_total_unstaking <- cache_get (fun c => default 0 (prev_total_unstaking c)) ;
  do prev_total_staking_wallets <-
    cache_get (fun c => default 0 (prev_total_staking_wallets c)) ;
  do unstaking_addresses <- load_unstaking ;
  do unstaking_addresses <-
    cleanup_expired height (PyDict.keys unstaking_addresses) unstaking_addresses ;
  do _ <- put_unstaking unstaking_addresses ;
  do t <- set_stake_wallets height prev_total_staking input_data
         (Totals prev_total_staking prev_total_unstaking prev_total_staking_wallets) ;
  do _ <- put_prev_state_height height ;
  do _ <- put_prev_total_staking (total_staking t) ;
  do _ <- put_prev_total_unstaking (total_unstaking t) ;
  do _ <- put_prev_total_staking_wallets (total_staking_wallets t) ;
  ret (Some (Output height t)).

(** [Transform.execute] *)
Definition execute (height : Z) (input_data : list (address * Z))
    : M world (option output) :=
  do prev_state_height <- cache_get prev_state_height ;
  match prev_state_height with
  | Some p =>
      if negb (p =? height - 1) then
        do _ <- call_async (RpcCall "set_last_block_height" None p transform_id) ;
        ret None
      else process_block height input_data
  | None => process_block height input_data
  end.

End Transform.

End StakeHistory.

(** ** recent_stake_wallets.py *)

Module RecentStakeWallets.

(** [self.transform_cache_db] *)
Record cache_db : Type := CacheDb {
  last_state_height : option Z;             (* b'last_state_height' *)
  recent_stake_wallets : option (PyDict.t Z) (* b'recent_stake_wallets' *)
}.

Record world : Type := World {
  transform_cache_db : cache_db;
  warehouse : list rpc_call
}.

Definition empty_db : cache_db := CacheDb None None.

(** The puts staged in [self.transform_cache_db.write_batch()]. *)
Inductive put_op : Type :=
| PutLastStateHeight (h : Z)
| PutRecentStakeWallets (d : PyDict.t Z).

Definition apply_put (c : cache_db) (op : put_op) : cache_db :=
  match op with
  | PutLastStateHeight h => CacheDb (Some h) (recent_stake_wallets c)
  | PutRecentStakeWallets d => CacheDb (last_state_height c) (Some d)
  end.

(** [cache_db_batch.write()]: the staged puts reach the store together. *)
Definition batch_write (batch : list put_op) : M world unit :=
  modify (fun w => World (foldl apply_put (transform_cache_db w) batch) (warehouse w)).

Definition cache_get {A : Type} (field : cache_db -> A) : M world A :=
  gets (fun w => field (transform_cache_db w)).

Definition call_async (r : rpc_call) : M world unit :=
  modify (fun w => World (transform_cache_db w) (warehouse w ++ [r])).

(** ['misc': {'recent_stake_wallets': {'wallets': ..., 'height': ...}}] *)
Record misc : Type := Misc {
  misc_wallets : option (PyDict.t Z);
  misc_height : Z
}.

Record output : Type := Output {
  out_height : Z;
  data : PyDict.t Z;
  out_misc : misc
}.

(** Truth value of [input_data['data']]: [None] and [{}] are false. *)
Definition truthy (set_stake_wallets : option (PyDict.t Z)) : bool :=
  match set_stake_wallets with
  | Some (_ :: _) => true
  | _ => false
  end.

Section Transform.

Variable transform_id : string.

(** Lines 42-64: what [execute] does once the height was accepted. *)
Definition process_block (height : Z) (set_stake_wallets : option (PyDict.t Z))
    (cache_db_batch : list put_op) : M world (option output) :=
  do staged <-
    (if truthy set_stake_wallets then
       do cached <- cache_get recent_stake_wallets ;
       let recent_stake_wallets := default [] cached in
       ret (Some recent_stake_wallets,
            cache_db_batch ++ [PutRecentStakeWallets recent_stake_wallets])
     else ret (None, cache_db_batch)) ;
  let recent_stake_wallets := fst staged in
  let cache_db_batch := snd staged ++ [PutLastStateHeight height] in
  do _ <- batch_write cache_db_batch ;
  ret (Some (Output height [] (Misc recent_stake_wallets height))).

(** [Transform.execute]; [input_data] stands for [input_data['data']]. *)
Definition execute (height : Z) (input_data : option (PyDict.t Z))
    : M world (option output) :=
  let cache_db_batch : list put_op := [] in
  do prev_state_height <- cache_get last_state_height ;
  match prev_state_height with
  | Some p =>
      if negb (p =? height - 1) then
        do _ <- call_async
                  (RpcCall "api_call" (Some "set_last_block_height"%string) p transform_id) ;
        ret None
      else process_block height input_data cache_db_batch
  | None => process_block height input_data cache_db_batch
  end.

End Transform.

End RecentStakeWallets.

(** ** Specification vocabulary for the staking ledger *)

Module Ledger.

Import StakeHistory.

(** The pending-unlock set as the code reads it back. *)
Definition pending (c : cache_db) : PyDict.t Z := default [] (unstaking c).

(** The effect of lines 142-154 on the store: the record of [addr] is
    written, and [addr] enters the pending-unlock set when its unlock
    height is not zero. *)
Definition store (addr : address) (r : wallet) (w : world) : world :=
  World
    (CacheDb (prev_state_height (transform_cache_db w))
             (prev_total_staking (transform_cache_db w))
             (prev_total_unstaking (transform_cache_db w))
             (prev_total_staking_wallets (transform_cache_db w))
             (if unlock_height r =? 0 then unstaking (transform_cache_db w)
              else Some (PyDict.set addr (unlock_height r) (pending (transform_cache_db w))))
             (<[addr := r]> (wallets (transform_cache_db w))))
    (icon_state_db w) (warehouse w).

(** The record the expiry cleanup writes back (line 90). *)
Definition settle (r : wallet) : wallet := Wallet (stake_value r) 0 0.

(** [w'] differs from [w] in per-address records only. *)
Definition same_but_wallets (w w' : world) : Prop :=
  prev_state_height (transform_cache_db w') = prev_state_height (transform_cache_db w) /\
  prev_total_staking (transform_cache_db w') = prev_total_staking (transform_cache_db w) /\
  prev_total_unstaking (transform_cache_db w') = prev_total_unstaking (transform_cache_db w) /\
  prev_total_staking_wallets (transform_cache_db w') =
    prev_total_staking_wallets (transform_cache_db w) /\
  unstaking (transform_cache_db w') = unstaking (transform_cache_db w) /\
  icon_state_db w' = icon_state_db w /\
  warehouse w' = warehouse w.

(** The effect of lines 160-163 on the store. *)
Definition commit (height : Z) (t : totals) (w : world) : world :=
  World
    (CacheDb (Some height) (Some (total_staking t)) (Some (total_unstaking t))
             (Some (total_staking_wallets t))
             (unstaking (transform_cache_db w)) (wallets (transform_cache_db w)))
    (icon_state_db w) (warehouse w).

(** The record before an update: all zero for an address never seen. *)
Definition prior (addr : address) (w : world) : wallet :=
  default (Wallet 0 0 0) (wallets (transform_cache_db w) !! addr).

(** The three ways a per-address update rewrites a record. *)
Inductive transition (unlock_period : Z -> Z -> Z) (height prev_total_staking : Z)
    (supply : option Z) (prev : wallet) (cur_stake_value : Z) : wallet -> Prop :=
| transition_unstake (s : Z) :
    cur_stake_value < stake_value prev ->
    supply = Some s ->
    transition unlock_period height prev_total_staking supply prev cur_stake_value
      (Wallet cur_stake_value
         (if 0 <? unstaking_value prev
          then unstaking_value prev + (stake_value prev - cur_stake_value)
          else stake_value prev - cur_stake_value)
         (height + unlock_period prev_total_staking s))
| transition_restake_partial :
    stake_value prev <= cur_stake_value ->
    0 < unstaking_value prev ->
    0 < unstaking_value prev - (cur_stake_value - stake_value prev) ->
    transition unlock_period height prev_total_staking supply prev cur_stake_value
      (Wallet cur_stake_value
         (unstaking_value prev - (cur_stake_value - stake_value prev))
         (unlock_height prev))
| transition_settled :
    stake_value prev <= cur_stake_value ->
    (0 < unstaking_value prev ->
     unstaking_value prev - (cur_stake_value - stake_value prev) <= 0) ->
    transition unlock_period height prev_total_staking supply prev cur_stake_value
      (Wallet cur_stake_value 0 0).

(** The change of [total_staking_wallets] the spec prescribes for one update. *)
Definition wallet_count_delta (prev_stake_value cur_stake_value : Z) : Z :=
  if (prev_stake_value =? 0) && (0 <? cur_stake_value) then 1
  else if (0 <? prev_stake_value) && (cur_stake_value =? 0) then -1
  else 0.

(** Every pending-unlock entry indexes a stored record, once. *)
Record indexed (c : cache_db) : Prop := Indexed {
  pending_nodup : NoDup (PyDict.keys (pending c));
  pending_has_wallet :
    forall a h, PyDict.get a (pending c) = Some h -> is_Some (wallets c !! a)
}.

(** Every record that is unstaking has an unlock height and is pending
    under it. *)
Record linked (c : cache_db) : Prop := Linked {
  unlock_iff_unstaking :
    forall a r, wallets c !! a = Some r ->
      (0 < unstaking_value r <-> 0 < unlock_height r);
  unstaking_is_pending :
    forall a r, wallets c !! a = Some r -> 0 < unstaking_value r ->
      PyDict.get a (pending c) = Some (unlock_height r)
}.

(** The pending-unlock set holds exactly the addresses that are unstaking. *)
Definition pending_exact (c : cache_db) : Prop :=
  forall a, is_Some (PyDict.get a (pending c)) <->
            exists r, wallets c !! a = Some r /\ 0 < unstaking_value r.

(** The worlds a transform can be in: it starts on an empty cache, the
    pipeline calls [execute] with heights [>= 0], and the chain state
    read by [_get_total_supply] changes on its own. *)
Inductive reachable (transform_id : string) (unlock_period : Z -> Z -> Z)
    : world -> Prop :=
| reachable_start (supply : option Z) :
    reachable transform_id unlock_period (World empty_db supply [])
| reachable_execute (w : world) (height : Z) (input_data : list (address * Z)) :
    reachable transform_id unlock_period w ->
    0 <= height ->
    reachable transform_id unlock_period
      (snd (execute transform_id unlock_period height input_data w))
| reachable_chain (w : world) (supply : option Z) :
    reachable transform_id unlock_period w ->
    reachable transform_id unlock_period
      (World (transform_cache_db w) supply (warehouse w)).

(** One call of [execute] by the pipeline, with the chain state at that time. *)
Record call : Type := Call {
  call_supply : option Z;
  call_height : Z;
  call_input : list (address * Z)
}.

Definition step (transform_id : string) (unlock_period : Z -> Z -> Z)
    (c : call) (w : world) : outcome (option output) * world :=
  execute transform_id unlock_period (call_height c) (call_input c)
    (World (transform_cache_db w) (call_supply c) (warehouse w)).

(** Lock settlement along a sequence of calls, for the address [a] whose
    record was [r] when the sequence starts: after every call that commits,
    the unstaking value of [a] is nonzero while the committed height is
    below [unlock_height r] and zero from that height on. *)
Fixpoint settles (transform_id : string) (unlock_period : Z -> Z -> Z)
    (a : address) (r : wallet) (calls : list call) (w : world) : Prop :=
  match calls with
  | [] => True
  | c :: calls' =>
      (forall out w',
          step transform_id unlock_period c w = (Returned (Some out), w') ->
          exists r', wallets (transform_cache_db w') !! a = Some r' /\
                     (call_height c < unlock_height r -> unstaking_value r' <> 0) /\
                     (unlock_height r <= call_height c -> unstaking_value r' = 0)) /\
      settles transform_id unlock_period a r calls'
        (snd (step transform_id unlock_period c w))
  end.

(** What is known of a tracked address between two calls: its record and
    pending entry are as the unstake left them, or the record is settled
    and the next height to commit has reached the unlock height. *)
Definition tracked (a : address) (r : wallet) (w : world) : Prop :=
  exists p,
    prev_state_height (transform_cache_db w) = Some p /\
    ((wallets (transform_cache_db w) !! a = Some r /\
      PyDict.get a (pending (transform_cache_db w)) = Some (unlock_height r)) \/
     (wallets (transform_cache_db w) !! a = Some (settle r) /\
      unlock_height r <= p + 1)).

(** Sums over the per-address records. *)
Definition sum_stake_value (c : cache_db) : Z :=
  map_fold (fun _ r acc => stake_value r + acc) 0 (wallets c).

Definition sum_unstaking_value (c : cache_db) : Z :=
  map_fold (fun _ r acc => unstaking_value r + acc) 0 (wallets c).


End Ledger.

(** ** Concrete runs *)

Module Scenario.

Import StakeHistory Ledger.

Definition tid : string := "stake_history".

(** A chain policy with a constant lock period of three blocks. *)
Definition period : Z -> Z -> Z := fun _ _ => 3.

(** A chain policy whose lock period grows with the total stake. *)
Definition period_by_stake : Z -> Z -> Z := fun total_stake _ => total_stake / 10 + 1.

Definition w0 : world := World empty_db (Some 800) [].

(** [hxa] stakes 100 at height 10 and unstakes down to 40 at height 11:
    60 are locked until height 14. *)
Definition w10 : world := snd (execute tid period 10 [("hxa"%string, 100)] w0).
Definition w11 : world := snd (execute tid period 11 [("hxa"%string, 40)] w10).

(** Two empty blocks, then the block of the unlock height. *)
Definition w12 : world := snd (execute tid period 12 [] w11).
Definition w13 : world := snd (execute tid period 13 [] w12).
Definition w14 : world := snd (execute tid period 14 [] w13).

(** Instead: [hxa] stakes back up to 100 at height 12. *)
Definition w12_restaked : world := snd (execute tid period 12 [("hxa"%string, 100)] w11).

(** Instead: [hxa] unstakes again in the block of the unlock height. *)
Definition w14_unstaked : world := snd (execute tid period 14 [("hxa"%string, 10)] w13).

(** Instead: the chain state cannot be read during block 11, in which
    [hxb] stakes before [hxa] unstakes. *)
Definition w10_offline : world := World (transform_cache_db w10) None (warehouse w10).
Definition block11 : list (address * Z) := [("hxb"%string, 5); ("hxa"%string, 40)].
Definition w11_failed : world := snd (execute tid period 11 block11 w10_offline).

(** The same block delivered again once the chain state can be read. *)
Definition w11_retried : world :=
  snd (execute tid period 11 block11
         (World (transform_cache_db w11_failed) (Some 800) (warehouse w11_failed))).

(** Two wallets under [period_by_stake]: 150 staked after height 10. *)
Definition v10 : world :=
  snd (execute tid period_by_stake 10 [("hxa"%string, 100); ("hxb"%string, 50)] w0).


(** Block 11 of that run, [hxa] raising its stake to 200 before [hxb]
    unstakes down to 10, stopped when the loop reaches [hxb]. *)
Definition block11_two : list (address * Z) := [("hxa"%string, 200); ("hxb"%string, 10)].
Definition v11_at_hxb : outcome totals * world :=
  set_stake_wallets period_by_stake 11 150 [("hxa"%string, 200)] (Totals 150 0 2)
    (snd (put_unstaking [] v10)).
Definition v11 : world := snd (execute tid period_by_stake 11 block11_two v10).

End Scenario.

(** ** Accounting vocabulary for the staking ledger *)

Module Accounts.

Import StakeHistory Ledger.

(** [w'] has the last state height, the three totals, the chain state and
    the warehouse log of [w]; records and pending-unlock set may differ. *)
Definition header_kept (w w' : world) : Prop :=
  prev_state_height (transform_cache_db w') = prev_state_height (transform_cache_db w) /\
  prev_total_staking (transform_cache_db w') = prev_total_staking (transform_cache_db w) /\
  prev_total_unstaking (transform_cache_db w') = prev_total_unstaking (transform_cache_db w) /\
  prev_total_staking_wallets (transform_cache_db w') =
    prev_total_staking_wallets (transform_cache_db w) /\
  icon_state_db w' = icon_state_db w /\
  warehouse w' = warehouse w.

(** The requests a call at [height] sends to the warehouse (lines 47-55). *)
Definition resync_requests (transform_id : string) (height : Z) (c : cache_db)
    : list rpc_call :=
  match prev_state_height c with
  | Some p =>
      if p =? height - 1 then []
      else [RpcCall "set_last_block_height" None p transform_id]
  | None => []
  end.

(** No pending-unlock entry is due at [height]. *)
Definition nothing_expires (height : Z) (c : cache_db) : Prop :=
  forall a h, PyDict.get a (pending c) = Some h -> height < h.

(** Every stored record satisfies [P]. *)
Definition all_records (P : wallet -> Prop) (c : cache_db) : Prop :=
  forall a r, wallets c !! a = Some r -> P r.


(** The number of stored records with a positive stake. *)
Definition count_staking_wallets (c : cache_db) : Z :=
  map_fold (fun _ r acc => (if 0 <? stake_value r then 1 else 0) + acc) 0 (wallets c).

Definition wallets_counted (c : cache_db) : Prop :=
  default 0 (prev_total_staking_wallets c) = count_staking_wallets c.


End Accounts.

(** ** Runs of the wallet snapshot *)

Module SnapshotRuns.

Import RecentStakeWallets.

(** The worlds the wallet-snapshot transform can be in. *)
Inductive reachable (transform_id : string) : world -> Prop :=
| reachable_start : reachable transform_id (World empty_db [])
| reachable_execute (w : world) (height : Z) (input_data : option (PyDict.t Z)) :
    reachable transform_id w ->
    reachable transform_id (snd (execute transform_id height input_data w)).

End SnapshotRuns.

(** * Properties *)

(** ** Python dictionaries behave as finite maps *)

Module PyDictFacts.

Section Facts.

Context {V : Type}.
Implicit Types (d : PyDict.t V) (k : address) (v : V).

Lemma get_set_eq k v d : PyDict.get k (PyDict.set k v d) = Some v.
Proof.
  induction d as [|[k' v'] d IH]; simpl.
  - by rewrite String.eqb_refl.
  - destruct (String.eqb k' k) eqn:E; simpl; rewrite E; done.
Qed.

Lemma get_set_ne k k' v d :
  k <> k' -> PyDict.get k' (PyDict.set k v d) = PyDict.get k' d.
Proof.
  intros Hne. induction d as [|[k0 v0] d IH]; simpl.
  - destruct (String.eqb k k') eqn:E; [apply String.eqb_eq in E; done | done].
  - destruct (String.eqb k0 k) eqn:E; simpl.
    + apply String.eqb_eq in E; subst k0.
      destruct (String.eqb k k') eqn:E'; [apply String.eqb_eq in E'; done | done].
    + by rewrite IH.
Qed.

Lemma get_pop_eq k d : PyDict.get k (PyDict.pop k d) = None.
Proof.
  induction d as [|[k' v'] d IH]; simpl; [done |].
  destruct (String.eqb k' k) eqn:E; simpl; [done | by rewrite E].
Qed.

Lemma get_pop_ne k k' d :
  k <> k' -> PyDict.get k' (PyDict.pop k d) = PyDict.get k' d.
Proof.
  intros Hne. induction d as [|[k0 v0] d IH]; simpl; [done |].
  destruct (String.eqb k0 k) eqn:E; simpl.
  - apply String.eqb_eq in E; subst k0.
    destruct (String.eqb k k') eqn:E'; [apply String.eqb_eq in E'; done | done].
  - by rewrite IH.
Qed.

Lemma get_is_Some k d : is_Some (PyDict.get k d) <-> k ∈ PyDict.keys d.
Proof.
  unfold PyDict.keys. induction d as [|[k' v'] d IH]; simpl.
  - split; [intros [? ?]; done | intros H; inversion H].
  - destruct (String.eqb k' k) eqn:E.
    + apply String.eqb_eq in E; subst k'. split; [intros _; left | eauto].
    + apply String.eqb_neq in E. rewrite IH. split.
      * intros H. by right.
      * intros H. apply elem_of_cons in H as [H | H]; [congruence | done].
Qed.

Lemma keys_pop k k' d : k' ∈ PyDict.keys (PyDict.pop k d) -> k' ∈ PyDict.keys d.
Proof.
  unfold PyDict.keys. induction d as [|[k0 v0] d IH]; simpl; [done |].
  destruct (String.eqb k0 k); simpl.
  - intros H. right. auto.
  - intros H. apply elem_of_cons in H as [-> | H]; [left | right; auto].
Qed.

Lemma NoDup_keys_pop k d :
  NoDup (PyDict.keys d) -> NoDup (PyDict.keys (PyDict.pop k d)).
Proof.
  induction d as [|[k0 v0] d IH]; simpl; [done |].
  intros [Hnotin Hnd]%NoDup_cons.
  destruct (String.eqb k0 k); [auto |].
  simpl. apply NoDup_cons. split; [| auto].
  intros Hin. apply Hnotin. by eapply keys_pop.
Qed.

Lemma keys_set k k' v d :
  k' ∈ PyDict.keys (PyDict.set k v d) -> k' = k \/ k' ∈ PyDict.keys d.
Proof.
  unfold PyDict.keys. induction d as [|[k0 v0] d IH]; simpl.
  - intros H. apply elem_of_cons in H as [-> | H]; [by left | inversion H].
  - destruct (String.eqb k0 k); simpl.
    + intros H. by right.
    + intros H. apply elem_of_cons in H as [-> | H].
      * right. left.
      * destruct (IH H) as [-> | Hin]; [by left | right; by right].
Qed.

Lemma NoDup_keys_set k v d :
  NoDup (PyDict.keys d) -> NoDup (PyDict.keys (PyDict.set k v d)).
Proof.
  induction d as [|[k0 v0] d IH]; simpl.
  - intros _. apply NoDup_singleton.
  - intros [Hnotin Hnd]%NoDup_cons.
    destruct (String.eqb k0 k) eqn:E; simpl.
    + apply NoDup_cons. done.
    + apply String.eqb_neq in E. apply NoDup_cons. split; [| auto].
      intros Hin. apply keys_set in Hin as [-> | Hin]; done.
Qed.

End Facts.

End PyDictFacts.

(** ** The per-address update in closed form *)

Module LedgerFacts.

Import StakeHistory Ledger.

Lemma bind_inv {S A B : Type} (m : M S A) (f : A -> M S B) (s s' : S) (o : outcome B) :
  bind m f s = (o, s') ->
  (exists a s1, m s = (Returned a, s1) /\ f a s1 = (o, s')) \/
  (exists e, m s = (Raised e, s') /\ o = Raised e).
Proof.
  unfold bind. destruct (m s) as [[a | e] s1]; intros H.
  - left. eauto.
  - right. inversion H; subst. eauto.
Qed.

Section Transform.

Variable transform_id : string.
Variable unlock_period : Z -> Z -> Z.

(** A per-address update either raises before any write (the chain state
    could not be read) or stores one record obtained by [transition] and
    returns the totals moved by the deltas of that record. *)
Lemma set_stake_inv height T addr cur t w o w' :
  set_stake unlock_period height T addr cur t w = (o, w') ->
  (exists e, o = Raised e /\ w' = w /\
             cur < stake_value (prior addr w) /\ icon_state_db w = None) \/
  (exists r,
      transition unlock_period height T (icon_state_db w) (prior addr w) cur r /\
      w' = store addr r w /\
      o = Returned
            (Totals (total_staking t - stake_value (prior addr w) + cur)
                    (total_unstaking t - unstaking_value (prior addr w) + unstaking_value r)
                    (total_staking_wallets t
                     + wallet_count_delta (stake_value (prior addr w)) cur))).
Proof.
  unfold set_stake, prior, store, pending, wallet_count_delta,
    bind, ret, cache_get, load_unstaking, cache_get, gets,
    put_wallet, put_unstaking, modify, with_db, _get_total_supply.
  destruct w as [c supply wh]; simpl.
  set (prev := default (Wallet 0 0 0) (wallets c !! addr)).
  replace (match wallets c !! addr with Some w => w | None => Wallet 0 0 0 end)
    with prev by (unfold prev; destruct (wallets c !! addr); done).
  assert (Hcount :
    (if (stake_value prev =? 0) && (0 <? cur) then total_staking_wallets t + 1
     else if (0 <? stake_value prev) && (cur =? 0) then total_staking_wallets t - 1
          else total_staking_wallets t) =
    total_staking_wallets t +
      (if (stake_value prev =? 0) && (0 <? cur) then 1
       else if (0 <? stake_value prev) && (cur =? 0) then -1 else 0)).
  { destruct ((stake_value prev =? 0) && (0 <? cur)); [done |].
    destruct ((0 <? stake_value prev) && (cur =? 0)); lia. }
  rewrite Hcount. clear Hcount.
  destruct (cur <? stake_value prev) eqn:Hlt.
  - apply Z.ltb_lt in Hlt.
    destruct supply as [s |]; simpl.
    + set (u := if 0 <? unstaking_value prev
                then unstaking_value prev + (stake_value prev - cur)
                else stake_value prev - cur).
      assert (Hu : (u <=? 0) = false).
      { apply Z.leb_gt. unfold u.
        destruct (0 <? unstaking_value prev) eqn:E; [apply Z.ltb_lt in E |]; lia. }
      rewrite Hu.
      intros H. right.
      exists (Wallet cur u (height + unlock_period T s)). split.
      { by eapply transition_unstake. }
      simpl. destruct (height + unlock_period T s =? 0); simpl in H;
        inversion H; subst; done.
    + intros H. left. exists TypeError. inversion H; subst. done.
  - apply Z.ltb_ge in Hlt. simpl.
    set (u := if 0 <? unstaking_value prev
              then unstaking_value prev - (cur - stake_value prev)
              else 0).
    destruct (u <=? 0) eqn:Hu.
    + apply Z.leb_le in Hu. simpl. intros H. right.
      exists (Wallet cur 0 0). split.
      { apply transition_settled; [done |].
        intros Hpos. unfold u in Hu.
        apply Z.ltb_lt in Hpos. by rewrite Hpos in Hu. }
      simpl. inversion H; subst; done.
    + apply Z.leb_gt in Hu. intros H. right.
      exists (Wallet cur u (unlock_height prev)).
      assert (Hpos : 0 < unstaking_value prev).
      { unfold u in Hu. destruct (0 <? unstaking_value prev) eqn:E; [| lia].
        by apply Z.ltb_lt in E. }
      assert (Hueq : u = unstaking_value prev - (cur - stake_value prev)).
      { unfold u. apply Z.ltb_lt in Hpos. by rewrite Hpos. }
      split.
      { rewrite Hueq. apply transition_restake_partial; [done | done | lia]. }
      simpl. destruct (unlock_height prev =? 0); simpl in H;
        inversion H; subst; done.
Qed.

(** *** Consistency is kept by every write *)

Lemma prior_lookup addr w r :
  wallets (transform_cache_db w) !! addr = Some r -> prior addr w = r.
Proof. unfold prior. by intros ->. Qed.

Lemma prior_unseen addr w :
  wallets (transform_cache_db w) !! addr = None -> prior addr w = Wallet 0 0 0.
Proof. unfold prior. by intros ->. Qed.

Lemma store_indexed addr r w :
  indexed (transform_cache_db w) -> indexed (transform_cache_db (store addr r w)).
Proof.
  intros [Hnd Hhas].
  split; unfold store, pending in *; simpl; destruct (unlock_height r =? 0); simpl.
  - done.
  - by apply PyDictFacts.NoDup_keys_set.
  - intros a h Hget. destruct (decide (addr = a)) as [-> | Hne].
    + rewrite lookup_insert_eq. eauto.
    + rewrite lookup_insert_ne by done. eauto.
  - intros a h. destruct (decide (addr = a)) as [-> | Hne].
    + rewrite lookup_insert_eq. eauto.
    + rewrite lookup_insert_ne by done.
      rewrite PyDictFacts.get_set_ne by done. eauto.
Qed.

Lemma store_linked addr r w :
  linked (transform_cache_db w) ->
  (0 < unstaking_value r <-> 0 < unlock_height r) ->
  linked (transform_cache_db (store addr r w)).
Proof.
  intros [Hiff Hpend] Hr.
  destruct (unlock_height r =? 0) eqn:E.
  - apply Z.eqb_eq in E.
    split; unfold store, pending in *; simpl; rewrite ?E; simpl.
    + intros a r'. destruct (decide (addr = a)) as [-> | Hne].
      * rewrite lookup_insert_eq. intros [= <-]. done.
      * rewrite lookup_insert_ne by done. eauto.
    + intros a r'. destruct (decide (addr = a)) as [-> | Hne].
      * rewrite lookup_insert_eq. intros [= <-]. lia.
      * rewrite lookup_insert_ne by done. eauto.
  - split; unfold store, pending in *; simpl; rewrite ?E; simpl.
    + intros a r'. destruct (decide (addr = a)) as [-> | Hne].
      * rewrite lookup_insert_eq. intros [= <-]. done.
      * rewrite lookup_insert_ne by done. eauto.
    + intros a r'. destruct (decide (addr = a)) as [-> | Hne].
      * rewrite lookup_insert_eq. intros [= <-] _.
        apply PyDictFacts.get_set_eq.
      * rewrite lookup_insert_ne by done.
        rewrite PyDictFacts.get_set_ne by done. eauto.
Qed.

Lemma set_stake_indexed height T addr cur t w o w' :
  indexed (transform_cache_db w) ->
  set_stake unlock_period height T addr cur t w = (o, w') ->
  indexed (transform_cache_db w').
Proof.
  intros Hc Hrun.
  apply set_stake_inv in Hrun as [(e & _ & -> & _) | (r & Htr & -> & _)]; [done |].
  by apply store_indexed.
Qed.

Lemma set_stake_wallets_indexed height T input_data :
  forall t w o w',
    indexed (transform_cache_db w) ->
    set_stake_wallets unlock_period height T input_data t w = (o, w') ->
    indexed (transform_cache_db w').
Proof.
  induction input_data as [|[addr cur] rest IH]; intros t w o w' Hc Hrun.
  - inversion Hrun; subst. done.
  - simpl in Hrun.
    apply bind_inv in Hrun as [(t1 & w1 & Hone & Hrest) | (e & Hone & _)].
    + eapply IH; [| exact Hrest]. by eapply set_stake_indexed.
    + by eapply set_stake_indexed.
Qed.

Section PositivePeriod.

(** The lock period is a positive number of blocks (iconservice keeps it
    above [UN_STAKE_LOCK_MIN]). *)
Hypothesis unlock_period_pos : forall t s, 0 < unlock_period t s.

Lemma transition_unlock_iff height T addr cur w r :
  0 <= height ->
  linked (transform_cache_db w) ->
  transition unlock_period height T (icon_state_db w) (prior addr w) cur r ->
  (0 < unstaking_value r <-> 0 < unlock_height r).
Proof.
  intros Hh Hc Htr. destruct Htr as [s Hlt Hs | Hle Hpos Hrest | Hle Hzero]; simpl.
  - pose proof (unlock_period_pos T s).
    destruct (0 <? unstaking_value (prior addr w)) eqn:E;
      [apply Z.ltb_lt in E |]; lia.
  - destruct (wallets (transform_cache_db w) !! addr) as [r0 |] eqn:Hr0.
    + rewrite (prior_lookup _ _ _ Hr0) in *.
      pose proof (unlock_iff_unstaking _ Hc _ _ Hr0). tauto.
    + rewrite (prior_unseen _ _ Hr0) in Hpos. simpl in Hpos. lia.
  - lia.
Qed.

Lemma set_stake_linked height T addr cur t w o w' :
  0 <= height ->
  linked (transform_cache_db w) ->
  set_stake unlock_period height T addr cur t w = (o, w') ->
  linked (transform_cache_db w').
Proof.
  intros Hh Hc Hrun.
  apply set_stake_inv in Hrun as [(e & _ & -> & _) | (r & Htr & -> & _)]; [done |].
  apply store_linked; [done |].
  by eapply transition_unlock_iff.
Qed.

Lemma set_stake_wallets_linked height T input_data :
  forall t w o w',
    0 <= height ->
    linked (transform_cache_db w) ->
    set_stake_wallets unlock_period height T input_data t w = (o, w') ->
    linked (transform_cache_db w').
Proof.
  induction input_data as [|[addr cur] rest IH]; intros t w o w' Hh Hc Hrun.
  - inversion Hrun; subst. done.
  - simpl in Hrun.
    apply bind_inv in Hrun as [(t1 & w1 & Hone & Hrest) | (e & Hone & _)].
    + eapply IH; [done | | exact Hrest].
      by eapply set_stake_linked.
    + by eapply set_stake_linked.
Qed.

End PositivePeriod.

(** *** The expiry cleanup *)

Lemma same_but_wallets_refl w : same_but_wallets w w.
Proof. unfold same_but_wallets. done. Qed.

(** Whatever its outcome, the cleanup only rewrites records of expired
    entries, each to its settled form. *)
Lemma cleanup_expired_any height addrs :
  forall d w o w',
    cleanup_expired height addrs d w = (o, w') ->
    same_but_wallets w w' /\
    forall a,
      wallets (transform_cache_db w') !! a = wallets (transform_cache_db w) !! a \/
      exists r h,
        wallets (transform_cache_db w) !! a = Some r /\
        PyDict.get a d = Some h /\ h <= height /\
        wallets (transform_cache_db w') !! a = Some (settle r).
Proof.
  induction addrs as [|addr addrs IH]; intros d w o w' Hrun; simpl in Hrun.
  - inversion Hrun; subst. split; [apply same_but_wallets_refl | by left].
  - destruct (PyDict.get addr d) as [h0 |] eqn:Hget.
    2:{ inversion Hrun; subst. split; [apply same_but_wallets_refl | by left]. }
    destruct (h0 <=? height) eqn:Hexp.
    2:{ by apply IH in Hrun. }
    apply Z.leb_le in Hexp.
    unfold bind, cache_get, gets in Hrun.
    destruct (wallets (transform_cache_db w) !! addr) as [r0 |] eqn:Hr0.
    2:{ inversion Hrun; subst. split; [apply same_but_wallets_refl | by left]. }
    simpl in Hrun. apply IH in Hrun as [Hsame Hpt]. split.
    + exact Hsame.
    + intros a. destruct (Hpt a) as [Heq | (r & h & Hr & Hg & Hle & Hset)].
      * simpl in Heq. destruct (decide (addr = a)) as [-> | Hne].
        -- rewrite lookup_insert_eq in Heq. right. exists r0, h0. done.
        -- rewrite lookup_insert_ne in Heq by done. by left.
      * simpl in Hr. destruct (decide (addr = a)) as [-> | Hne].
        -- by rewrite PyDictFacts.get_pop_eq in Hg.
        -- rewrite lookup_insert_ne in Hr by done.
           rewrite PyDictFacts.get_pop_ne in Hg by done.
           right. exists r, h. done.
Qed.

(** When the cleanup returns, an expired entry that was visited is gone
    and its record settled; every other address is as before. *)
Lemma cleanup_expired_returned height addrs :
  forall d w d' w',
    cleanup_expired height addrs d w = (Returned d', w') ->
    (NoDup (PyDict.keys d) -> NoDup (PyDict.keys d')) /\
    (forall a,
        (forall h, PyDict.get a d = Some h -> h <= height -> a ∉ addrs) ->
        PyDict.get a d' = PyDict.get a d /\
        wallets (transform_cache_db w') !! a = wallets (transform_cache_db w) !! a) /\
    (forall a h,
        PyDict.get a d = Some h -> h <= height -> a ∈ addrs ->
        PyDict.get a d' = None /\
        exists r, wallets (transform_cache_db w) !! a = Some r /\
                  wallets (transform_cache_db w') !! a = Some (settle r)).
Proof.
  induction addrs as [|addr addrs IH]; intros d w d' w' Hrun; simpl in Hrun.
  - inversion Hrun; subst. split_and!; [done | done |].
    intros a h _ _ Hin. inversion Hin.
  - destruct (PyDict.get addr d) as [h0 |] eqn:Hget; [| inversion Hrun].
    destruct (h0 <=? height) eqn:Hexp.
    + apply Z.leb_le in Hexp.
      unfold bind, cache_get, gets in Hrun.
      destruct (wallets (transform_cache_db w) !! addr) as [r0 |] eqn:Hr0;
        [| inversion Hrun].
      simpl in Hrun. apply IH in Hrun as (Hnd & Hkeep & Hdrop). simpl in *.
      split_and!.
      * intros H. by apply Hnd, PyDictFacts.NoDup_keys_pop.
      * intros a Ha. destruct (decide (addr = a)) as [-> | Hne].
        { exfalso. eapply Ha; [done | done | left]. }
        destruct (Hkeep a) as [Hg Hw].
        { intros h. rewrite PyDictFacts.get_pop_ne by done. intros Hg Hle Hin.
          eapply Ha; [done | done | by right]. }
        rewrite PyDictFacts.get_pop_ne in Hg by done.
        rewrite lookup_insert_ne in Hw by done. done.
      * intros a h Hg Hle Hin. destruct (decide (addr = a)) as [-> | Hne].
        { destruct (Hkeep a) as [Hg' Hw'].
          { intros h'. by rewrite PyDictFacts.get_pop_eq. }
          rewrite PyDictFacts.get_pop_eq in Hg'. rewrite lookup_insert_eq in Hw'.
          split; [done |]. exists r0. done. }
        apply elem_of_cons in Hin as [-> | Hin]; [done |].
        destruct (Hdrop a h) as [Hg' (r & Hr & Hr')]; [| done | done |].
        { by rewrite PyDictFacts.get_pop_ne. }
        rewrite lookup_insert_ne in Hr by done. eauto.
    + apply Z.leb_gt in Hexp.
      apply IH in Hrun as (Hnd & Hkeep & Hdrop). split_and!; [done | |].
      * intros a Ha. apply Hkeep. intros h Hg Hle Hin.
        eapply Ha; [done | done | by right].
      * intros a h Hg Hle Hin. apply elem_of_cons in Hin as [-> | Hin].
        { rewrite Hget in Hg. inversion Hg; subst. lia. }
        by eapply Hdrop.
Qed.

(** The cleanup returns when every visited entry that expired has a record. *)
Lemma cleanup_expired_succeeds height addrs :
  forall d w,
    NoDup addrs ->
    (forall a, a ∈ addrs -> is_Some (PyDict.get a d)) ->
    (forall a, a ∈ addrs -> is_Some (wallets (transform_cache_db w) !! a)) ->
    exists d' w', cleanup_expired height addrs d w = (Returned d', w').
Proof.
  induction addrs as [|addr addrs IH]; intros d w Hnd Hd Hw; simpl.
  - eauto.
  - apply NoDup_cons in Hnd as [Hnotin Hnd].
    destruct (Hd addr) as [h0 Hget]; [left |]. rewrite Hget.
    destruct (h0 <=? height).
    + destruct (Hw addr) as [r0 Hr0]; [left |].
      unfold bind, cache_get, gets. rewrite Hr0. simpl.
      apply IH; [done | |].
      * intros a Hin. rewrite PyDictFacts.get_pop_ne; [apply Hd; by right |].
        intros ->. done.
      * intros a Hin. simpl. destruct (decide (addr = a)) as [-> | Hne]; [done |].
        rewrite lookup_insert_ne by done. apply Hw. by right.
    + apply IH; [done | |]; intros a Hin; [apply Hd | apply Hw]; by right.
Qed.

(** *** One accepted block, and [execute], in closed form *)

Lemma process_block_eq height input_data w :
  process_block unlock_period height input_data w =
    let c := transform_cache_db w in
    match cleanup_expired height (PyDict.keys (pending c)) (pending c) w with
    | (Raised e, w1) => (Raised e, w1)
    | (Returned d', w1) =>
        match set_stake_wallets unlock_period height (default 0 (prev_total_staking c))
                input_data
                (Totals (default 0 (prev_total_staking c))
                        (default 0 (prev_total_unstaking c))
                        (default 0 (prev_total_staking_wallets c)))
                (snd (put_unstaking d' w1)) with
        | (Raised e, w2) => (Raised e, w2)
        | (Returned t, w2) => (Returned (Some (Output height t)), commit height t w2)
        end
    end.
Proof.
  unfold process_block, bind, load_unstaking, cache_get, gets, pending. simpl.
  destruct (cleanup_expired _ _ _ w) as [[d' | e] w1]; [| done].
  destruct (set_stake_wallets _ _ _ _ _ _) as [[t | e] w2]; done.
Qed.

Lemma execute_eq height input_data w :
  execute transform_id unlock_period height input_data w =
    match prev_state_height (transform_cache_db w) with
    | Some p =>
        if p =? height - 1 then process_block unlock_period height input_data w
        else (Returned None,
              World (transform_cache_db w) (icon_state_db w)
                    (warehouse w ++ [RpcCall "set_last_block_height" None p transform_id]))
    | None => process_block unlock_period height input_data w
    end.
Proof.
  unfold execute, bind, cache_get, gets.
  destruct (prev_state_height (transform_cache_db w)) as [p |]; [| done].
  destruct (p =? height - 1); done.
Qed.

Lemma cleanup_expired_indexed height addrs d w o w' :
  indexed (transform_cache_db w) ->
  cleanup_expired height addrs d w = (o, w') ->
  indexed (transform_cache_db w').
Proof.
  intros [Hnd Hhas] Hrun.
  apply cleanup_expired_any in Hrun as [(_ & _ & _ & _ & Hu & _) Hpt].
  split; unfold pending in *; rewrite ?Hu.
  - done.
  - intros a h Hget. destruct (Hpt a) as [-> | (r & _ & _ & _ & _ & ->)]; eauto.
Qed.

Lemma cleanup_expired_linked height addrs d w o w' :
  linked (transform_cache_db w) ->
  cleanup_expired height addrs d w = (o, w') ->
  linked (transform_cache_db w').
Proof.
  intros [Hiff Hpend] Hrun.
  apply cleanup_expired_any in Hrun as [(_ & _ & _ & _ & Hu & _) Hpt].
  split; unfold pending in *; rewrite ?Hu.
  - intros a r'. destruct (Hpt a) as [-> | (r & _ & _ & _ & _ & ->)]; [eauto |].
    intros [= <-]. done.
  - intros a r'. destruct (Hpt a) as [-> | (r & _ & _ & _ & _ & ->)]; [eauto |].
    intros [= <-]. simpl. lia.
Qed.

(** What stays in the set written back at line 92 was pending before. *)
Lemma cleanup_expired_subset height w d' w' :
  cleanup_expired height (PyDict.keys (pending (transform_cache_db w)))
    (pending (transform_cache_db w)) w = (Returned d', w') ->
  forall a h,
    PyDict.get a d' = Some h -> PyDict.get a (pending (transform_cache_db w)) = Some h.
Proof.
  intros Hrun. apply cleanup_expired_returned in Hrun as (_ & Hkeep & Hdrop).
  set (d := pending (transform_cache_db w)) in *.
  intros a h Hg'. destruct (PyDict.get a d) as [h2 |] eqn:Hg.
  - destruct (decide (h2 <= height)) as [Hle | Hgt].
    + destruct (Hdrop a h2) as [Hnone _]; [done | done | | congruence].
      apply PyDictFacts.get_is_Some. by rewrite Hg.
    + destruct (Hkeep a) as [Hsame _]; [| congruence].
      intros h3 Hg3 Hle. rewrite Hg in Hg3. inversion Hg3; subst. lia.
  - destruct (Hkeep a) as [Hsame _]; [| congruence].
    intros h3 Hg3. congruence.
Qed.

Lemma put_unstaking_indexed height w d' w' :
  indexed (transform_cache_db w) ->
  cleanup_expired height (PyDict.keys (pending (transform_cache_db w)))
    (pending (transform_cache_db w)) w = (Returned d', w') ->
  indexed (transform_cache_db (snd (put_unstaking d' w'))).
Proof.
  intros [Hnd Hhas] Hrun.
  pose proof (cleanup_expired_subset _ _ _ _ Hrun) as Hsub.
  pose proof (cleanup_expired_any _ _ _ _ _ _ Hrun) as [_ Hpt].
  apply cleanup_expired_returned in Hrun as (Hnd' & _ & _).
  split; unfold pending; simpl.
  - auto.
  - intros a h Hg'. apply Hsub in Hg'. apply Hhas in Hg'.
    destruct (Hpt a) as [-> | (r & _ & _ & _ & _ & ->)]; eauto.
Qed.

Lemma put_unstaking_linked height w d' w' :
  linked (transform_cache_db w) ->
  cleanup_expired height (PyDict.keys (pending (transform_cache_db w)))
    (pending (transform_cache_db w)) w = (Returned d', w') ->
  linked (transform_cache_db (snd (put_unstaking d' w'))).
Proof.
  intros Hc Hrun.
  pose proof (cleanup_expired_linked _ _ _ _ _ _ Hc Hrun) as [Hiff' _].
  destruct Hc as [Hiff Hpend].
  pose proof (cleanup_expired_any _ _ _ _ _ _ Hrun) as [_ Hpt].
  apply cleanup_expired_returned in Hrun as (_ & Hkeep & Hdrop).
  set (d := pending (transform_cache_db w)) in *.
  split; unfold pending; simpl.
  - exact Hiff'.
  - intros a r' Hr' Hpos.
    destruct (Hpt a) as [Heq | (r & _ & _ & _ & _ & Hset)].
    2:{ rewrite Hset in Hr'. inversion Hr'; subst. simpl in Hpos. lia. }
    rewrite Heq in Hr'. pose proof (Hpend _ _ Hr' Hpos) as Hg.
    destruct (Hkeep a) as [Hsame _]; [| congruence].
    intros h Hg2 Hle Hin. fold d in Hg. rewrite Hg in Hg2. inversion Hg2; subst.
    destruct (Hdrop a (unlock_height r')) as [_ (r & Hr & Hset)]; [done | done | done |].
    rewrite <- Heq, Hset in Hr'. inversion Hr'; subst. simpl in Hpos. lia.
Qed.

Lemma process_block_indexed height input_data w o w' :
  indexed (transform_cache_db w) ->
  process_block unlock_period height input_data w = (o, w') ->
  indexed (transform_cache_db w').
Proof.
  intros Hc. rewrite process_block_eq. simpl.
  destruct (cleanup_expired _ _ _ w) as [[d' | e] w1] eqn:Hclean.
  2:{ intros [= <- <-]. by eapply cleanup_expired_indexed. }
  pose proof (put_unstaking_indexed _ _ _ _ Hc Hclean) as Hc2.
  destruct (set_stake_wallets _ _ _ _ _ _) as [[t | e] w2] eqn:Hloop.
  - intros [= <- <-].
    pose proof (set_stake_wallets_indexed _ _ _ _ _ _ _ Hc2 Hloop) as [? ?].
    split; done.
  - intros [= <- <-]. by eapply set_stake_wallets_indexed.
Qed.

Lemma execute_indexed height input_data w :
  indexed (transform_cache_db w) ->
  indexed (transform_cache_db
             (snd (execute transform_id unlock_period height input_data w))).
Proof.
  intros Hc. rewrite execute_eq.
  destruct (prev_state_height (transform_cache_db w)) as [p |].
  - destruct (p =? height - 1); [| done].
    destruct (process_block _ _ _ w) as [o w'] eqn:Hrun.
    by eapply process_block_indexed.
  - destruct (process_block _ _ _ w) as [o w'] eqn:Hrun.
    by eapply process_block_indexed.
Qed.

Lemma reachable_indexed w :
  reachable transform_id unlock_period w -> indexed (transform_cache_db w).
Proof.
  induction 1 as [supply | w height input_data _ IH Hh | w supply _ IH].
  - split; unfold pending; simpl; [apply NoDup_nil_2 | done].
  - by apply execute_indexed.
  - exact IH.
Qed.

Section PositivePeriodBlocks.

Hypothesis unlock_period_pos : forall t s, 0 < unlock_period t s.

Lemma process_block_linked height input_data w o w' :
  0 <= height ->
  linked (transform_cache_db w) ->
  process_block unlock_period height input_data w = (o, w') ->
  linked (transform_cache_db w').
Proof.
  intros Hh Hc. rewrite process_block_eq. simpl.
  destruct (cleanup_expired _ _ _ w) as [[d' | e] w1] eqn:Hclean.
  2:{ intros [= <- <-]. by eapply cleanup_expired_linked. }
  pose proof (put_unstaking_linked _ _ _ _ Hc Hclean) as Hc2.
  destruct (set_stake_wallets _ _ _ _ _ _) as [[t | e] w2] eqn:Hloop.
  - intros [= <- <-].
    pose proof (set_stake_wallets_linked unlock_period_pos _ _ _ _ _ _ _ Hh Hc2 Hloop)
      as [? ?].
    split; done.
  - intros [= <- <-]. by eapply set_stake_wallets_linked.
Qed.

Lemma execute_linked height input_data w :
  0 <= height ->
  linked (transform_cache_db w) ->
  linked (transform_cache_db
            (snd (execute transform_id unlock_period height input_data w))).
Proof.
  intros Hh Hc. rewrite execute_eq.
  destruct (prev_state_height (transform_cache_db w)) as [p |].
  - destruct (p =? height - 1); [| done].
    destruct (process_block _ _ _ w) as [o w'] eqn:Hrun.
    by eapply process_block_linked.
  - destruct (process_block _ _ _ w) as [o w'] eqn:Hrun.
    by eapply process_block_linked.
Qed.

Lemma reachable_linked w :
  reachable transform_id unlock_period w -> linked (transform_cache_db w).
Proof.
  induction 1 as [supply | w height input_data _ IH Hh | w supply _ IH].
  - split; unfold pending; simpl; intros a r; by rewrite lookup_empty.
  - by apply execute_linked.
  - exact IH.
Qed.

End PositivePeriodBlocks.

Lemma execute_committed_height height input_data w out w' :
  execute transform_id unlock_period height input_data w = (Returned (Some out), w') ->
  prev_state_height (transform_cache_db w') = Some height /\ out_height out = height.
Proof.
  rewrite execute_eq.
  assert (Hblock :
    process_block unlock_period height input_data w = (Returned (Some out), w') ->
    prev_state_height (transform_cache_db w') = Some height /\ out_height out = height).
  { rewrite process_block_eq. simpl.
    destruct (cleanup_expired _ _ _ w) as [[d' | e] w1]; [| done].
    destruct (set_stake_wallets _ _ _ _ _ _) as [[t | e] w2]; [| done].
    intros [= <- <-]. done. }
  destruct (prev_state_height (transform_cache_db w)) as [p |]; [| done].
  destruct (p =? height - 1); [done | intros H; inversion H].
Qed.

(** *** Addresses that a block does not mention *)

Lemma store_untouched a addr r w :
  a <> addr ->
  wallets (transform_cache_db (store addr r w)) !! a = wallets (transform_cache_db w) !! a /\
  PyDict.get a (pending (transform_cache_db (store addr r w))) =
    PyDict.get a (pending (transform_cache_db w)).
Proof.
  intros Hne. unfold store, pending. simpl. split.
  - by rewrite lookup_insert_ne.
  - destruct (unlock_height r =? 0); simpl; [done |].
    by rewrite PyDictFacts.get_set_ne.
Qed.

Lemma set_stake_wallets_untouched a height T input_data :
  forall t w o w',
    a ∉ PyDict.keys input_data ->
    set_stake_wallets unlock_period height T input_data t w = (o, w') ->
    wallets (transform_cache_db w') !! a = wallets (transform_cache_db w) !! a /\
    PyDict.get a (pending (transform_cache_db w')) =
      PyDict.get a (pending (transform_cache_db w)) /\
    prev_state_height (transform_cache_db w') = prev_state_height (transform_cache_db w).
Proof.
  induction input_data as [|[addr cur] rest IH]; intros t w o w' Hnotin Hrun.
  - inversion Hrun; subst. done.
  - simpl in Hrun. unfold PyDict.keys in Hnotin. simpl in Hnotin.
    apply not_elem_of_cons in Hnotin as [Hne Hnotin].
    assert (Hone : forall o1 w1,
      set_stake unlock_period height T addr cur t w = (o1, w1) ->
      wallets (transform_cache_db w1) !! a = wallets (transform_cache_db w) !! a /\
      PyDict.get a (pending (transform_cache_db w1)) =
        PyDict.get a (pending (transform_cache_db w)) /\
      prev_state_height (transform_cache_db w1) = prev_state_height (transform_cache_db w)).
    { intros o1 w1 H1.
      apply set_stake_inv in H1 as [(e & _ & -> & _) | (r & _ & -> & _)]; [done |].
      destruct (store_untouched a addr r w Hne) as [-> ->]. done. }
    apply bind_inv in Hrun as [(t1 & w1 & H1 & Hrest) | (e & H1 & _)].
    + destruct (Hone _ _ H1) as (<- & <- & <-). by eapply IH.
    + by eapply Hone.
Qed.

(** An accepted block that does not mention a tracked address keeps it
    tracked; when the block commits, the record of the address is the
    original one below the unlock height and the settled one from there on. *)
Lemma process_block_tracked a r height input_data w o w' :
  a ∉ PyDict.keys input_data ->
  tracked a r w ->
  prev_state_height (transform_cache_db w) = Some (height - 1) ->
  process_block unlock_period height input_data w = (o, w') ->
  tracked a r w' /\
  (forall out, o = Returned out ->
     (height < unlock_height r -> wallets (transform_cache_db w') !! a = Some r) /\
     (unlock_height r <= height ->
      wallets (transform_cache_db w') !! a = Some (settle r))).
Proof.
  intros Hnotin (p & Hp & Htr) Hprev. rewrite Hp in Hprev.
  assert (p = height - 1) as -> by congruence. clear Hprev.
  rewrite process_block_eq. simpl.
  set (d := pending (transform_cache_db w)) in *.
  destruct (cleanup_expired _ _ _ w) as [[d' | e] w1] eqn:Hclean.
  - destruct (cleanup_expired_returned _ _ _ _ _ _ Hclean) as (_ & Hkeep & Hdrop).
    pose proof (cleanup_expired_any _ _ _ _ _ _ Hclean)
      as [(Hh1 & _ & _ & _ & _ & _) Hpt1].
    (* the record of [a] and its entry in [d'] after a cleanup that returned *)
    assert (Hafter :
      (height < unlock_height r /\
       wallets (transform_cache_db w1) !! a = Some r /\
       PyDict.get a d' = Some (unlock_height r)) \/
      (unlock_height r <= height /\
       wallets (transform_cache_db w1) !! a = Some (settle r))).
    { destruct Htr as [[Hr Hg] | [Hr Hle]].
      - destruct (decide (unlock_height r <= height)) as [Hle | Hgt].
        + right. split; [done |].
          destruct (Hdrop a (unlock_height r)) as [_ (r0 & Hr0 & Hset)]; [done | done | |].
          { apply PyDictFacts.get_is_Some. fold d. by rewrite Hg. }
          congruence.
        + left. destruct (Hkeep a) as [Hg' Hw'].
          { intros h Hgh Hle. fold d in Hg. rewrite Hg in Hgh. inversion Hgh; subst. lia. }
          split; [lia |]. split; congruence.
      - right. split; [lia |].
        destruct (Hpt1 a) as [Heq | (r0 & h & Hr0 & _ & _ & Hset)]; [congruence |].
        rewrite Hr in Hr0. inversion Hr0; subst. by rewrite Hset. }
    destruct (set_stake_wallets _ _ _ _ _ _) as [[t | e] w2] eqn:Hloop;
      intros [= <- <-];
      destruct (set_stake_wallets_untouched _ _ _ _ _ _ _ _ Hnotin Hloop)
        as (Hw2 & Hg2 & Hh2);
      simpl in Hw2, Hg2, Hh2; unfold pending in Hg2; simpl in Hg2.
    + split.
      * exists height. split; [done |]. unfold commit, pending. simpl.
        destruct Hafter as [(Hlt & Hr1 & Hg1) | (Hle & Hr1)].
        -- left. split; congruence.
        -- right. split; [congruence | lia].
      * intros out _. unfold commit. simpl.
        destruct Hafter as [(Hlt & Hr1 & Hg1) | (Hle & Hr1)].
        -- split; [intros _; congruence | lia].
        -- split; [lia | intros _; congruence].
    + split; [| done].
      exists (height - 1). split; [congruence |]. unfold pending.
      destruct Hafter as [(Hlt & Hr1 & Hg1) | (Hle & Hr1)].
      * left. split; congruence.
      * right. split; [congruence | lia].
  - intros [= <- <-]. split; [| done].
    pose proof (cleanup_expired_any _ _ _ _ _ _ Hclean)
      as [(Hh1 & _ & _ & _ & Hu1 & _) Hpt1].
    exists (height - 1). split; [congruence |].
    assert (Hpd : pending (transform_cache_db w1) = d)
      by (unfold d, pending; by rewrite Hu1).
    rewrite Hpd.
    destruct Htr as [[Hr Hg] | [Hr Hle]].
    + destruct (Hpt1 a) as [Heq | (r0 & h & Hr0 & Hg0 & Hle & Hset)].
      * left. split; congruence.
      * right. fold d in Hg. rewrite Hr in Hr0. rewrite Hg in Hg0.
        inversion Hr0; inversion Hg0; subst. split; [done | lia].
    + right. split; [| done].
      destruct (Hpt1 a) as [Heq | (r0 & h & Hr0 & _ & _ & Hset)]; [congruence |].
      rewrite Hr in Hr0. inversion Hr0; subst. by rewrite Hset.
Qed.

Lemma step_tracked a r c w :
  a ∉ PyDict.keys (call_input c) ->
  tracked a r w ->
  tracked a r (snd (step transform_id unlock_period c w)) /\
  (forall out w',
      step transform_id unlock_period c w = (Returned (Some out), w') ->
      (call_height c < unlock_height r ->
       wallets (transform_cache_db w') !! a = Some r) /\
      (unlock_height r <= call_height c ->
       wallets (transform_cache_db w') !! a = Some (settle r))).
Proof.
  intros Hnotin Htr. unfold step. rewrite execute_eq. simpl.
  assert (Htr' : tracked a r
            (World (transform_cache_db w) (call_supply c) (warehouse w))) by exact Htr.
  destruct Htr as (p & Hp & _). rewrite Hp.
  destruct (p =? call_height c - 1) eqn:E.
  - apply Z.eqb_eq in E. subst p.
    destruct (process_block _ _ _ _) as [o w1] eqn:Hrun.
    destruct (process_block_tracked a r _ _ _ _ _ Hnotin Htr' Hp Hrun) as [Ht Hc].
    split; [exact Ht |].
    intros out w' [= -> <-]. by eapply Hc.
  - split; [exact Htr' | intros out w' H; inversion H].
Qed.

(** Lock settlement holds along any sequence of calls that leave the
    address alone. *)
Lemma tracked_settles a r calls :
  forall w,
    unstaking_value r <> 0 ->
    Forall (fun c => a ∉ PyDict.keys (call_input c)) calls ->
    tracked a r w ->
    settles transform_id unlock_period a r calls w.
Proof.
  induction calls as [|c calls IH]; intros w Hr Hall Htr; simpl; [done |].
  apply Forall_cons in Hall as [Hc Hall].
  destruct (step_tracked a r c w Hc Htr) as [Hnext Hcommit].
  split; [| by apply IH].
  intros out w' Hstep. destruct (Hcommit _ _ Hstep) as [Hlow Hhigh].
  destruct (decide (call_height c < unlock_height r)) as [Hlt | Hge].
  - exists r. split; [auto |]. split; [done | lia].
  - exists (settle r). split; [apply Hhigh; lia |]. split; [lia | done].
Qed.

(** *** Unstaking inside a block *)

Lemma cleanup_expired_stake height addrs d w o w' :
  cleanup_expired height addrs d w = (o, w') ->
  forall a, stake_value (prior a w') = stake_value (prior a w).
Proof.
  intros Hrun a. apply cleanup_expired_any in Hrun as [_ Hpt]. unfold prior.
  destruct (Hpt a) as [-> | (r & h & -> & _ & _ & ->)]; done.
Qed.

Lemma set_stake_wallets_unstake a v s height T input_data :
  forall t w t' w',
    NoDup (PyDict.keys input_data) ->
    (a, v) ∈ input_data ->
    v < stake_value (prior a w) ->
    icon_state_db w = Some s ->
    set_stake_wallets unlock_period height T input_data t w = (Returned t', w') ->
    exists r, wallets (transform_cache_db w') !! a = Some r /\
              stake_value r = v /\
              unlock_height r = height + unlock_period T s.
Proof.
  induction input_data as [|[addr cur] rest IH]; intros t w t' w' Hnd Hin Hlt Hs Hrun.
  - inversion Hin.
  - unfold PyDict.keys in Hnd. simpl in Hnd, Hrun.
    apply NoDup_cons in Hnd as [Hnotin Hnd].
    apply bind_inv in Hrun as [(t1 & w1 & Hone & Hrest) | (e & _ & He)];
      [| inversion He].
    apply set_stake_inv in Hone as [(e & He & _) | (r & Htr & -> & _)];
      [inversion He |].
    apply elem_of_cons in Hin as [[= <- <-] | Hin].
    + destruct (set_stake_wallets_untouched a _ _ _ _ _ _ _ Hnotin Hrest) as (-> & _).
      exists r. unfold store. simpl. rewrite lookup_insert_eq. split; [done |].
      destruct Htr as [s0 _ Hs0 | Hle _ _ | Hle _]; [| lia | lia].
      rewrite Hs in Hs0. inversion Hs0; subst. done.
    + assert (Hne : a <> addr).
      { intros ->. apply Hnotin. unfold PyDict.keys.
        apply (list_elem_of_fmap_2 fst) in Hin. exact Hin. }
      eapply IH; [exact Hnd | exact Hin | | | exact Hrest].
      * unfold prior. destruct (store_untouched a addr r w Hne) as [-> _]. exact Hlt.
      * exact Hs.
Qed.

(** *** The total stake follows the records *)

Lemma sum_insert (f : wallet -> Z) (m : gmap address wallet) a r' :
  map_fold (fun _ r acc => f r + acc) 0 (<[a := r']> m) =
    map_fold (fun _ r acc => f r + acc) 0 m - from_option f 0 (m !! a) + f r'.
Proof.
  assert (Hcomm : forall (m' : gmap address wallet) (j1 j2 : address) z1 z2 (y : Z),
    j1 <> j2 -> m' !! j1 = Some z1 -> m' !! j2 = Some z2 ->
    f z1 + (f z2 + y) = f z2 + (f z1 + y)) by (intros; lia).
  destruct (m !! a) as [r |] eqn:Hr; simpl.
  - rewrite <- (insert_delete_eq m).
    rewrite map_fold_insert_L; [| apply Hcomm | apply lookup_delete_eq].
    rewrite (map_fold_delete_L _ _ a r m); [lia | apply Hcomm | done].
  - rewrite map_fold_insert_L; [lia | apply Hcomm | done].
Qed.






End Transform.

End LedgerFacts.

(** * The claims of the specification *)

(** ** The sequencing rule, for both transforms *)

(** C1. When a committed last state height [p] exists and [height] is not
    [p + 1], [execute] of either transform returns [None], leaves the
    cache exactly as it was and sends one resync request carrying [p] to
    the warehouse. *)
Theorem execute_out_of_order_skips :
  forall (transform_id : string) (unlock_period : Z -> Z -> Z) (height p : Z),
    height <> p + 1 ->
    (forall (input_data : list (address * Z)) (w : StakeHistory.world),
        StakeHistory.prev_state_height (StakeHistory.transform_cache_db w) = Some p ->
        StakeHistory.execute transform_id unlock_period height input_data w =
          (Returned None,
           StakeHistory.World
             (StakeHistory.transform_cache_db w)
             (StakeHistory.icon_state_db w)
             (StakeHistory.warehouse w ++
                [RpcCall "set_last_block_height" None p transform_id])))
    /\
    (forall (input_data : option (PyDict.t Z)) (w : RecentStakeWallets.world),
        RecentStakeWallets.last_state_height (RecentStakeWallets.transform_cache_db w) = Some p ->
        RecentStakeWallets.execute transform_id height input_data w =
          (Returned None,
           RecentStakeWallets.World
             (RecentStakeWallets.transform_cache_db w)
             (RecentStakeWallets.warehouse w ++
                [RpcCall "api_call" (Some "set_last_block_height"%string) p transform_id]))).
Proof.
  intros tid up height p Hne. split.
  - intros input_data w Hp.
    unfold StakeHistory.execute, bind, StakeHistory.cache_get, gets. rewrite Hp.
    destruct (p =? height - 1) eqn:E; [apply Z.eqb_eq in E; lia |].
    reflexivity.
  - intros input_data w Hp.
    unfold RecentStakeWallets.execute, bind, RecentStakeWallets.cache_get, gets. rewrite Hp.
    destruct (p =? height - 1) eqn:E; [apply Z.eqb_eq in E; lia |].
    reflexivity.
Qed.

(** ** The staking ledger *)

Section StakingLedger.

Import StakeHistory Ledger LedgerFacts.

Variable transform_id : string.
Variable unlock_period : Z -> Z -> Z.

(** C6 (amended). When a committed block lowers the stake of a wallet, the
    record of that wallet gets the unlock height
    [height + unlock_period T total_supply] where [T] is the total staking
    committed by the previous block, read at the start of the call: the
    total before any update of this block, not the running total that
    earlier wallets of the same block have already moved. *)
Theorem unlock_height_uses_committed_total :
  forall (height : Z) (input_data : list (address * Z)) (w w' : world)
         (out : output) (a : address) (v s : Z),
    execute transform_id unlock_period height input_data w = (Returned (Some out), w') ->
    NoDup (PyDict.keys input_data) ->
    (a, v) ∈ input_data ->
    v < stake_value (prior a w) ->
    icon_state_db w = Some s ->
    exists r,
      wallets (transform_cache_db w') !! a = Some r /\
      stake_value r = v /\
      unlock_height r =
        height + unlock_period (default 0 (prev_total_staking (transform_cache_db w))) s.
Proof.
  intros height input_data w w' out a v s Hrun Hnd Hin Hlt Hs.
  assert (Hblock :
    process_block unlock_period height input_data w = (Returned (Some out), w')).
  { rewrite execute_eq in Hrun.
    destruct (prev_state_height (transform_cache_db w)) as [p |]; [| done].
    destruct (p =? height - 1); [done | inversion Hrun]. }
  clear Hrun. rewrite process_block_eq in Hblock. simpl in Hblock.
  destruct (cleanup_expired _ _ _ w) as [[d' | e] w1] eqn:Hclean; [| inversion Hblock].
  destruct (set_stake_wallets _ _ _ _ _ _) as [[t | e] w2] eqn:Hloop;
    [| inversion Hblock].
  inversion Hblock; subst. clear Hblock.
  pose proof (cleanup_expired_stake _ _ _ _ _ _ Hclean a) as Hstake.
  pose proof (cleanup_expired_any _ _ _ _ _ _ Hclean)
    as [(_ & _ & _ & _ & _ & Hicon & _) _].
  eapply set_stake_wallets_unstake in Hloop as (r & Hr & Hv & Hu);
    [| exact Hnd | exact Hin | | ].
  - exists r. done.
  - unfold prior in *. simpl. lia.
  - simpl. congruence.
Qed.

(** C7. A per-address update adds one to [total_staking_wallets] exactly
    when the prior stake is 0 and the new stake is positive, subtracts one
    exactly when the prior stake is positive and the new stake is 0, and
    leaves the count alone for every other pair. *)
Theorem wallet_count_transition :
  forall (height T : Z) (addr : address) (cur_stake_value : Z)
         (t t' : totals) (w w' : world),
    set_stake unlock_period height T addr cur_stake_value t w = (Returned t', w') ->
    let prev_stake_value := stake_value (prior addr w) in
    (prev_stake_value = 0 /\ 0 < cur_stake_value ->
     total_staking_wallets t' = total_staking_wallets t + 1) /\
    (0 < prev_stake_value /\ cur_stake_value = 0 ->
     total_staking_wallets t' = total_staking_wallets t - 1) /\
    (~ (prev_stake_value = 0 /\ 0 < cur_stake_value) ->
     ~ (0 < prev_stake_value /\ cur_stake_value = 0) ->
     total_staking_wallets t' = total_staking_wallets t).
Proof.
  intros height T addr cur t t' w w' Hrun prev.
  apply set_stake_inv in Hrun as [(e & He & _) | (r & _ & _ & Ht)]; [inversion He |].
  inversion Ht; subst t'. simpl. unfold wallet_count_delta. subst prev.
  generalize (stake_value (prior addr w)). intros prev.
  destruct (Z.eqb_spec prev 0), (Z.ltb_spec 0 cur), (Z.ltb_spec 0 prev),
    (Z.eqb_spec cur 0); simpl; repeat split; intros; lia.
Qed.

(** C9. On a reachable cache, [execute] at the next expected height (or as
    the first block ever) with an empty payload runs the expiry cleanup to
    its end, commits that height as the last state height and returns an
    output for it; every pending entry that expired is removed and its
    record settled. *)
Theorem empty_block_still_commits :
  forall (height : Z) (w : world),
    reachable transform_id unlock_period w ->
    (prev_state_height (transform_cache_db w) = None \/
     prev_state_height (transform_cache_db w) = Some (height - 1)) ->
    exists (out : output) (w' : world),
      execute transform_id unlock_period height [] w = (Returned (Some out), w') /\
      out_height out = height /\
      prev_state_height (transform_cache_db w') = Some height /\
      forall a h,
        PyDict.get a (pending (transform_cache_db w)) = Some h -> h <= height ->
        PyDict.get a (pending (transform_cache_db w')) = None /\
        exists r, wallets (transform_cache_db w) !! a = Some r /\
                  wallets (transform_cache_db w') !! a = Some (settle r).
Proof.
  intros height w Hreach Hnext.
  destruct (reachable_indexed _ _ _ Hreach) as [Hnd Hhas].
  set (d := pending (transform_cache_db w)) in *.
  destruct (cleanup_expired_succeeds height (PyDict.keys d) d w) as (d' & w1 & Hclean).
  { exact Hnd. }
  { intros a Hin. by apply PyDictFacts.get_is_Some. }
  { intros a Hin. apply PyDictFacts.get_is_Some in Hin as [h Hg]. eauto. }
  assert (Hblock : process_block unlock_period height [] w =
    (Returned (Some (Output height
        (Totals (default 0 (prev_total_staking (transform_cache_db w)))
                (default 0 (prev_total_unstaking (transform_cache_db w)))
                (default 0 (prev_total_staking_wallets (transform_cache_db w)))))),
     commit height
       (Totals (default 0 (prev_total_staking (transform_cache_db w)))
               (default 0 (prev_total_unstaking (transform_cache_db w)))
               (default 0 (prev_total_staking_wallets (transform_cache_db w))))
       (snd (put_unstaking d' w1)))).
  { rewrite process_block_eq. simpl. fold d. rewrite Hclean. done. }
  eexists _, _. split.
  { rewrite execute_eq. destruct Hnext as [-> | ->]; [exact Hblock |].
    rewrite Z.eqb_refl. exact Hblock. }
  split; [done |]. split; [done |].
  intros a h Hg Hle. unfold commit, pending. simpl.
  apply cleanup_expired_returned in Hclean as (_ & _ & Hdrop).
  apply (Hdrop a h); [done | done |].
  apply PyDictFacts.get_is_Some. fold d in Hg. by rewrite Hg.
Qed.

Section PositivePeriod.

(** The lock period is a positive number of blocks. *)
Hypothesis unlock_period_pos : forall t s, 0 < unlock_period t s.

(** C8. After every committed [execute] on a reachable cache, every stored
    wallet record has a positive unstaking value if and only if it has a
    positive unlock height. *)
Theorem unstaking_iff_unlock_height :
  forall (height : Z) (input_data : list (address * Z)) (w w' : world) (out : output),
    reachable transform_id unlock_period w ->
    0 <= height ->
    execute transform_id unlock_period height input_data w = (Returned (Some out), w') ->
    forall a r,
      wallets (transform_cache_db w') !! a = Some r ->
      (0 < unstaking_value r <-> 0 < unlock_height r).
Proof.
  intros height input_data w w' out Hreach Hh Hrun a r Hr.
  assert (Hreach' : reachable transform_id unlock_period w').
  { replace w' with (snd (execute transform_id unlock_period height input_data w))
      by (by rewrite Hrun).
    by apply reachable_execute. }
  apply (reachable_linked _ _ unlock_period_pos) in Hreach'.
  by eapply unlock_iff_unstaking.
Qed.

(** C4 (amended). After every committed [execute] on a reachable cache,
    every address whose record has a positive unstaking value is in the
    pending-unlock set, under the unlock height of its record.  A
    per-address update that settles the unstaking value to 0 does not
    touch the pending-unlock set: an entry of that address stays until the
    expiry cleanup drops it. *)
Theorem unstaking_wallets_are_pending :
  (forall (height : Z) (input_data : list (address * Z)) (w w' : world) (out : output),
      reachable transform_id unlock_period w ->
      0 <= height ->
      execute transform_id unlock_period height input_data w = (Returned (Some out), w') ->
      forall a r,
        wallets (transform_cache_db w') !! a = Some r ->
        0 < unstaking_value r ->
        PyDict.get a (pending (transform_cache_db w')) = Some (unlock_height r))
  /\
  (forall (height T : Z) (addr : address) (cur_stake_value : Z)
          (t t' : totals) (w w' : world) (r : wallet),
      set_stake unlock_period height T addr cur_stake_value t w = (Returned t', w') ->
      wallets (transform_cache_db w') !! addr = Some r ->
      unstaking_value r = 0 ->
      unstaking (transform_cache_db w') = unstaking (transform_cache_db w)).
Proof.
  split.
  - intros height input_data w w' out Hreach Hh Hrun a r Hr Hpos.
    assert (Hreach' : reachable transform_id unlock_period w').
    { replace w' with (snd (execute transform_id unlock_period height input_data w))
        by (by rewrite Hrun).
      by apply reachable_execute. }
    apply (reachable_linked _ _ unlock_period_pos) in Hreach'.
    by eapply unstaking_is_pending.
  - intros height T addr cur t t' w w' r Hrun Hr Hzero.
    apply set_stake_inv in Hrun as [(e & He & _) | (r0 & Htr & -> & _)];
      [inversion He |].
    unfold store in *. simpl in *. rewrite lookup_insert_eq in Hr.
    inversion Hr; subst r0. clear Hr.
    destruct Htr as [s Hlt Hs | Hle Hpos Hrest | Hle Hsettled]; simpl in *.
    + destruct (0 <? unstaking_value (prior addr w)) eqn:E;
        [apply Z.ltb_lt in E |]; lia.
    + lia.
    + done.
Qed.

End PositivePeriod.

End StakingLedger.

Section LockSettlement.

Import StakeHistory Ledger LedgerFacts.

Variable transform_id : string.
Variable unlock_period : Z -> Z -> Z.

(** The lock period is a positive number of blocks. *)
Hypothesis unlock_period_pos : forall t s, 0 < unlock_period t s.

(** C3 (amended). On every committed block the expiry cleanup runs to its
    end before the per-wallet updates start: every pending entry whose
    unlock height is at most the height of the block is removed from the
    set and the unstaking value and unlock height of its record are
    zeroed; the updates then run on that store.  Consequently, for a
    wallet left unstaking with unlock height [H] by a committed block, and
    as long as no later block mentions that wallet, its unstaking value is
    nonzero after every committed block of height below [H] and zero after
    every committed block of height [H] or more. *)
Theorem expiry_cleanup_and_lock_settlement :
  (forall (height : Z) (input_data : list (address * Z)) (w w' : world)
          (out : option output),
      process_block unlock_period height input_data w = (Returned out, w') ->
      exists d' w1 t w2,
        cleanup_expired height (PyDict.keys (pending (transform_cache_db w)))
          (pending (transform_cache_db w)) w = (Returned d', w1) /\
        (forall a h,
            PyDict.get a (pending (transform_cache_db w)) = Some h -> h <= height ->
            PyDict.get a d' = None /\
            exists r, wallets (transform_cache_db w) !! a = Some r /\
                      wallets (transform_cache_db w1) !! a = Some (settle r)) /\
        set_stake_wallets unlock_period height
          (default 0 (prev_total_staking (transform_cache_db w))) input_data
          (Totals (default 0 (prev_total_staking (transform_cache_db w)))
                  (default 0 (prev_total_unstaking (transform_cache_db w)))
                  (default 0 (prev_total_staking_wallets (transform_cache_db w))))
          (snd (put_unstaking d' w1)) = (Returned t, w2) /\
        w' = commit height t w2)
  /\
  (forall (height : Z) (input_data : list (address * Z)) (w0 w : world) (out : output)
          (a : address) (r : wallet) (calls : list call),
      reachable transform_id unlock_period w0 ->
      0 <= height ->
      execute transform_id unlock_period height input_data w0 = (Returned (Some out), w) ->
      wallets (transform_cache_db w) !! a = Some r ->
      0 < unstaking_value r ->
      Forall (fun c => a ∉ PyDict.keys (call_input c)) calls ->
      settles transform_id unlock_period a r calls w).
Proof.
  split.
  - intros height input_data w w' out Hblock.
    rewrite process_block_eq in Hblock. simpl in Hblock.
    destruct (cleanup_expired _ _ _ w) as [[d' | e] w1] eqn:Hclean; [| inversion Hblock].
    destruct (set_stake_wallets _ _ _ _ _ _) as [[t | e] w2] eqn:Hloop;
      [| inversion Hblock].
    inversion Hblock; subst. clear Hblock.
    exists d', w1, t, w2. split_and!; [done | | exact Hloop | done].
    intros a h Hg Hle.
    apply cleanup_expired_returned in Hclean as (_ & _ & Hdrop).
    apply (Hdrop a h); [done | done |].
    apply PyDictFacts.get_is_Some. by rewrite Hg.
  - intros height input_data w0 w out a r calls Hreach Hh Hrun Hr Hpos Hall.
    assert (Hreach' : reachable transform_id unlock_period w).
    { replace w with (snd (execute transform_id unlock_period height input_data w0))
        by (by rewrite Hrun).
      by apply reachable_execute. }
    apply (reachable_linked _ _ unlock_period_pos) in Hreach'.
    apply tracked_settles; [lia | done |].
    exists height. split.
    + by eapply execute_committed_height.
    + left. split; [done |]. by eapply unstaking_is_pending.
Qed.

End LockSettlement.

(** ** The wallet snapshot *)

Module SnapshotFacts.

Import RecentStakeWallets.

Lemma snapshot_process_block_eq height input_data batch w :
  process_block height input_data batch w =
    let cached := default [] (recent_stake_wallets (transform_cache_db w)) in
    if truthy input_data then
      (Returned (Some (Output height [] (Misc (Some cached) height))),
       snd (batch_write
              (batch ++ [PutRecentStakeWallets cached; PutLastStateHeight height]) w))
    else
      (Returned (Some (Output height [] (Misc None height))),
       snd (batch_write (batch ++ [PutLastStateHeight height]) w)).
Proof.
  unfold process_block, cache_get, batch_write, bind, gets, modify, ret. simpl.
  destruct (truthy input_data); simpl; [| done].
  by rewrite <- app_assoc.
Qed.

Lemma snapshot_execute_eq transform_id height input_data w :
  execute transform_id height input_data w =
    match last_state_height (transform_cache_db w) with
    | Some p =>
        if p =? height - 1 then process_block height input_data [] w
        else (Returned None,
              World (transform_cache_db w)
                    (warehouse w ++
                       [RpcCall "api_call" (Some "set_last_block_height"%string) p
                                transform_id]))
    | None => process_block height input_data [] w
    end.
Proof.
  unfold execute, bind, cache_get, gets.
  destruct (last_state_height (transform_cache_db w)) as [p |]; [| done].
  destruct (p =? height - 1); done.
Qed.

(** Every call of the wallet-snapshot [execute] writes the cache at most
    once, with the whole batch. *)
Lemma snapshot_execute_atomic transform_id height input_data w :
  let result := execute transform_id height input_data w in
  (fst result = Returned None /\
   transform_cache_db (snd result) = transform_cache_db w) \/
  (exists out batch,
      fst result = Returned (Some out) /\
      snd result = snd (batch_write batch w) /\
      last_state_height (transform_cache_db (snd result)) = Some height).
Proof.
  cbv zeta. rewrite snapshot_execute_eq, snapshot_process_block_eq. cbv zeta. cbn [app].
  set (cached := default [] (recent_stake_wallets (transform_cache_db w))).
  assert (Hblock :
    exists out batch,
      (if truthy input_data
       then (Returned (Some (Output height [] (Misc (Some cached) height))),
             snd (batch_write [PutRecentStakeWallets cached; PutLastStateHeight height] w))
       else (Returned (Some (Output height [] (Misc None height))),
             snd (batch_write [PutLastStateHeight height] w))) =
      (Returned (Some out), snd (batch_write batch w)) /\
      last_state_height (transform_cache_db (snd (batch_write batch w))) = Some height).
  { destruct (truthy input_data).
    - by exists (Output height [] (Misc (Some cached) height)),
                [PutRecentStakeWallets cached; PutLastStateHeight height].
    - by exists (Output height [] (Misc None height)), [PutLastStateHeight height]. }
  destruct Hblock as (out & batch & Heq & Hh).
  destruct (last_state_height (transform_cache_db w)) as [p |];
    [destruct (p =? height - 1) |];
    try (left; done);
    right; exists out, batch; rewrite Heq; done.
Qed.

End SnapshotFacts.

(** C10. Once the height is accepted, the wallet-snapshot [execute] leaves
    the cached mapping of recent wallets as it was.  With wallet activity
    in the payload the batch writes back, under [recent_stake_wallets],
    the mapping it has just read (the empty mapping when the key was
    never written) and the output carries that mapping; without activity
    the batch writes the height only and the output carries [None].  The
    primary data is empty in both cases. *)
Theorem wallet_snapshot_keeps_mapping :
  forall (transform_id : string) (height : Z) (input_data : option (PyDict.t Z))
         (w : RecentStakeWallets.world),
    RecentStakeWallets.last_state_height (RecentStakeWallets.transform_cache_db w) = None \/
    RecentStakeWallets.last_state_height (RecentStakeWallets.transform_cache_db w) =
      Some (height - 1) ->
    let cached :=
      default [] (RecentStakeWallets.recent_stake_wallets
                    (RecentStakeWallets.transform_cache_db w)) in
    let result := RecentStakeWallets.execute transform_id height input_data w in
    default [] (RecentStakeWallets.recent_stake_wallets
                  (RecentStakeWallets.transform_cache_db (snd result))) = cached /\
    (RecentStakeWallets.truthy input_data = true ->
     result =
       (Returned (Some (RecentStakeWallets.Output height []
                          (RecentStakeWallets.Misc (Some cached) height))),
        snd (RecentStakeWallets.batch_write
               [RecentStakeWallets.PutRecentStakeWallets cached;
                RecentStakeWallets.PutLastStateHeight height] w))) /\
    (RecentStakeWallets.truthy input_data = false ->
     result =
       (Returned (Some (RecentStakeWallets.Output height []
                          (RecentStakeWallets.Misc None height))),
        snd (RecentStakeWallets.batch_write
               [RecentStakeWallets.PutLastStateHeight height] w)) /\
     RecentStakeWallets.recent_stake_wallets
       (RecentStakeWallets.transform_cache_db (snd result)) =
     RecentStakeWallets.recent_stake_wallets (RecentStakeWallets.transform_cache_db w)).
Proof.
  intros tid height input_data w Hnext. simpl.
  assert (Hblock :
    RecentStakeWallets.execute tid height input_data w =
    RecentStakeWallets.process_block height input_data [] w).
  { rewrite SnapshotFacts.snapshot_execute_eq.
    destruct Hnext as [-> | ->]; [done |]. by rewrite Z.eqb_refl. }
  rewrite Hblock, SnapshotFacts.snapshot_process_block_eq. simpl.
  destruct (RecentStakeWallets.truthy input_data); simpl; split_and!; intros; done.
Qed.

(** ** The claims on concrete runs *)

Section ConcreteRuns.

Import StakeHistory Ledger LedgerFacts Scenario.

Lemma period_pos : forall t s : Z, 0 < period t s.
Proof. intros t s. unfold period. lia. Qed.

Lemma w10_reachable : reachable tid period w10.
Proof. apply reachable_execute; [apply reachable_start | lia]. Qed.

Lemma w11_reachable : reachable tid period w11.
Proof. apply reachable_execute; [apply w10_reachable | lia]. Qed.

Lemma w13_reachable : reachable tid period w13.
Proof.
  apply reachable_execute; [| lia].
  apply reachable_execute; [apply w11_reachable | lia].
Qed.

(** C2. The expiry cleanup zeroes the unstaking value of a record without
    taking it off [total_unstaking]: after block 14 of the run (stake 100
    at height 10, unstake to 40 at height 11, empty blocks 12 to 14, lock
    period 3) the committed [total_unstaking] is 60 while the unstaking
    values of the stored records sum to 0.  The staking half holds:
    [total_staking] is 40 and so is the sum of the stake values. *)
Theorem total_unstaking_keeps_expired_amounts :
  execute tid period 14 [] w13 =
    (Returned (Some (Output 14 (Totals 40 60 1))), w14) /\
  wallets (transform_cache_db w14) !! "hxa"%string = Some (Wallet 40 0 0) /\
  prev_total_unstaking (transform_cache_db w14) = Some 60 /\
  sum_unstaking_value (transform_cache_db w14) = 0 /\
  prev_total_staking (transform_cache_db w14) = Some 40 /\
  sum_stake_value (transform_cache_db w14) = 40.
Proof. split_and!; vm_compute; reflexivity. Qed.

(** C5. The staking ledger writes with separate [put]s: when the chain
    state cannot be read while block 11 is processed, [execute] raises
    after the record of [hxb] (and the pending-unlock set) were written;
    the store keeps that record while the last state height and the totals
    are still those of block 10.  When the same block is delivered again
    with the chain state back, it commits totals that miss the stake of
    [hxb]: [total_staking] is 40 for records that sum to 45, and one
    staking wallet is counted for two. *)
Theorem failed_block_leaves_partial_writes :
  fst (execute tid period 11 block11 w10_offline) = Raised TypeError /\
  wallets (transform_cache_db w10_offline) !! "hxb"%string = None /\
  wallets (transform_cache_db w11_failed) !! "hxb"%string = Some (Wallet 5 0 0) /\
  prev_state_height (transform_cache_db w11_failed) = Some 10 /\
  prev_total_staking (transform_cache_db w11_failed) = Some 100 /\
  sum_stake_value (transform_cache_db w11_failed) = 105 /\
  fst (execute tid period 11 block11
         (World (transform_cache_db w11_failed) (Some 800) (warehouse w11_failed))) =
    Returned (Some (Output 11 (Totals 40 60 1))) /\
  sum_stake_value (transform_cache_db w11_retried) = 45.
Proof. split_and!; vm_compute; reflexivity. Qed.

(** C3, as stated, fails when the wallet is active again.  The unstake of
    [hxa] at height 11 sets unlock height 14.  If [hxa] stakes back at
    height 12, its unstaking value is 0 after that block, a committed
    height strictly between 11 and 14; if [hxa] unstakes again in block
    14, its unstaking value is 30 after the first committed block of
    height 14 or more. *)
Lemma lock_settlement_fails_for_active_wallet :
  wallets (transform_cache_db w11) !! "hxa"%string = Some (Wallet 40 60 14) /\
  (execute tid period 12 [("hxa"%string, 100)] w11 =
     (Returned (Some (Output 12 (Totals 100 0 1))), w12_restaked) /\
   wallets (transform_cache_db w12_restaked) !! "hxa"%string = Some (Wallet 100 0 0)) /\
  (fst (execute tid period 12 [] w11) = Returned (Some (Output 12 (Totals 40 60 1))) /\
   fst (execute tid period 13 [] w12) = Returned (Some (Output 13 (Totals 40 60 1))) /\
   execute tid period 14 [("hxa"%string, 10)] w13 =
     (Returned (Some (Output 14 (Totals 10 90 1))), w14_unstaked) /\
   wallets (transform_cache_db w14_unstaked) !! "hxa"%string = Some (Wallet 10 30 17)) /\
  ~ settles tid period "hxa" (Wallet 40 60 14)
      [Call (Some 800) 12 [("hxa"%string, 100)]] w11 /\
  ~ settles tid period "hxa" (Wallet 40 60 14)
      [Call (Some 800) 12 []; Call (Some 800) 13 []; Call (Some 800) 14 [("hxa"%string, 10)]]
      w11.
Proof.
  split_and!; try (vm_compute; reflexivity).
  - intros [H _].
    destruct (H (Output 12 (Totals 100 0 1)) w12_restaked) as (r' & Hr' & Hlow & _).
    { vm_compute. reflexivity. }
    vm_compute in Hr'. inversion Hr'; subst r'.
    apply Hlow; [simpl; lia | reflexivity].
  - intros (_ & _ & H & _).
    destruct (H (Output 14 (Totals 10 90 1)) w14_unstaked) as (r' & Hr' & _ & Hhigh).
    { vm_compute. reflexivity. }
    vm_compute in Hr'. inversion Hr'; subst r'.
    assert (Hz : unstaking_value (Wallet 10 30 17) = 0) by (apply Hhigh; simpl; lia).
    simpl in Hz. lia.
Qed.

(** C4, as stated, fails after a full restake: block 12 settles the
    unstaking value of [hxa] to 0 and commits, and [hxa] is still in the
    pending-unlock set with unlock height 14. *)
Lemma pending_set_keeps_settled_wallet :
  execute tid period 12 [("hxa"%string, 100)] w11 =
    (Returned (Some (Output 12 (Totals 100 0 1))), w12_restaked) /\
  wallets (transform_cache_db w12_restaked) !! "hxa"%string = Some (Wallet 100 0 0) /\
  PyDict.get "hxa" (pending (transform_cache_db w12_restaked)) = Some 14 /\
  ~ pending_exact (transform_cache_db w12_restaked).
Proof.
  split_and!; try (vm_compute; reflexivity).
  intros Hexact.
  destruct (proj1 (Hexact "hxa"%string)) as (r & Hr & Hpos).
  { exists 14. vm_compute. reflexivity. }
  vm_compute in Hr. inversion Hr; subst r. simpl in Hpos. lia.
Qed.

(** C6, as stated, fails in a block with two updates.  When the loop of
    block 11 reaches [hxb], the update of [hxa] has moved the running
    total (and the sum of the stored stakes) from 150 to 250; the unstake
    of [hxb] still gets the lock period of 150, the total committed by
    block 10: unlock height 27, not 37. *)
Lemma unlock_height_ignores_running_total :
  v11_at_hxb = (Returned (Totals 250 0 2), snd v11_at_hxb) /\
  sum_stake_value (transform_cache_db (snd v11_at_hxb)) = 250 /\
  prev_total_staking (transform_cache_db v10) = Some 150 /\
  execute tid period_by_stake 11 block11_two v10 =
    (Returned (Some (Output 11 (Totals 210 40 2))), v11) /\
  wallets (transform_cache_db v11) !! "hxb"%string = Some (Wallet 10 40 27) /\
  27 = 11 + period_by_stake 150 800 /\
  27 <> 11 + period_by_stake (total_staking (Totals 250 0 2)) 800.
Proof. split_and!; try (vm_compute; reflexivity). vm_compute. discriminate. Qed.

(** *** The theorems at work *)

Lemma execute_out_of_order_skips_witness :
  12 <> 10 + 1 /\
  execute tid period 12 [("hxa"%string, 7)] w10 =
    (Returned None,
     World (transform_cache_db w10) (Some 800)
           [RpcCall "set_last_block_height" None 10 tid]) /\
  RecentStakeWallets.execute "recent_stake_wallets" 12 (Some [("hxa"%string, 7)])
    (RecentStakeWallets.World (RecentStakeWallets.CacheDb (Some 10) None) []) =
    (Returned None,
     RecentStakeWallets.World (RecentStakeWallets.CacheDb (Some 10) None)
       [RpcCall "api_call" (Some "set_last_block_height"%string) 10 "recent_stake_wallets"]).
Proof.
  split; [lia |]. split.
  - apply (proj1 (execute_out_of_order_skips tid period 12 10 ltac:(lia))
             [("hxa"%string, 7)] w10).
    vm_compute. reflexivity.
  - apply (proj2 (execute_out_of_order_skips "recent_stake_wallets" period 12 10 ltac:(lia))
             (Some [("hxa"%string, 7)])
             (RecentStakeWallets.World (RecentStakeWallets.CacheDb (Some 10) None) [])).
    reflexivity.
Defined.

Lemma expiry_cleanup_and_lock_settlement_witness :
  (exists d' w1 t w2,
      cleanup_expired 14 (PyDict.keys (pending (transform_cache_db w13)))
        (pending (transform_cache_db w13)) w13 = (Returned d', w1) /\
      (forall a h,
          PyDict.get a (pending (transform_cache_db w13)) = Some h -> h <= 14 ->
          PyDict.get a d' = None /\
          exists r, wallets (transform_cache_db w13) !! a = Some r /\
                    wallets (transform_cache_db w1) !! a = Some (settle r)) /\
      set_stake_wallets period 14
        (default 0 (prev_total_staking (transform_cache_db w13))) []
        (Totals (default 0 (prev_total_staking (transform_cache_db w13)))
                (default 0 (prev_total_unstaking (transform_cache_db w13)))
                (default 0 (prev_total_staking_wallets (transform_cache_db w13))))
        (snd (put_unstaking d' w1)) = (Returned t, w2) /\
      w14 = commit 14 t w2) /\
  settles tid period "hxa" (Wallet 40 60 14)
    [Call (Some 800) 12 []; Call (Some 800) 13 []; Call (Some 800) 14 []] w11.
Proof.
  split.
  - apply (proj1 (expiry_cleanup_and_lock_settlement tid period period_pos)
             14 [] w13 w14 (Some (Output 14 (Totals 40 60 1)))).
    vm_compute. reflexivity.
  - apply (proj2 (expiry_cleanup_and_lock_settlement tid period period_pos)
             11 [("hxa"%string, 40)] w10 w11 (Output 11 (Totals 40 60 1))
             "hxa"%string (Wallet 40 60 14)).
    + exact w10_reachable.
    + lia.
    + vm_compute. reflexivity.
    + vm_compute. reflexivity.
    + simpl. lia.
    + repeat apply Forall_cons_2; try apply Forall_nil_2; simpl; apply not_elem_of_nil.
Defined.

Lemma unstaking_wallets_are_pending_witness :
  PyDict.get "hxa" (pending (transform_cache_db w11)) =
    Some (unlock_height (Wallet 40 60 14)) /\
  unstaking (transform_cache_db
               (snd (set_stake period 12 40 "hxa"%string 100 (Totals 40 60 1) w11))) =
    unstaking (transform_cache_db w11).
Proof.
  split.
  - apply (proj1 (unstaking_wallets_are_pending tid period period_pos)
             11 [("hxa"%string, 40)] w10 w11 (Output 11 (Totals 40 60 1))
             w10_reachable ltac:(lia)).
    + vm_compute. reflexivity.
    + vm_compute. reflexivity.
    + simpl. lia.
  - apply (proj2 (unstaking_wallets_are_pending tid period period_pos)
             12 40 "hxa"%string 100 (Totals 40 60 1) (Totals 100 0 1) w11
             (snd (set_stake period 12 40 "hxa"%string 100 (Totals 40 60 1) w11))
             (Wallet 100 0 0)).
    + vm_compute. reflexivity.
    + vm_compute. reflexivity.
    + reflexivity.
Defined.

Lemma unlock_height_uses_committed_total_witness :
  exists r,
    wallets (transform_cache_db v11) !! "hxb"%string = Some r /\
    stake_value r = 10 /\
    unlock_height r =
      11 + period_by_stake (default 0 (prev_total_staking (transform_cache_db v10))) 800.
Proof.
  apply (unlock_height_uses_committed_total tid period_by_stake 11 block11_two v10 v11
           (Output 11 (Totals 210 40 2)) "hxb"%string 10 800).
  - vm_compute. reflexivity.
  - unfold block11_two, PyDict.keys. simpl.
    apply NoDup_cons. split; [| apply NoDup_singleton].
    intros Hin. inversion Hin as [| ? ? ? Hin']; subst. inversion Hin'.
  - right. left.
  - vm_compute. reflexivity.
  - reflexivity.
Defined.

Lemma wallet_count_transition_witness :
  total_staking_wallets (Totals 105 0 2) = total_staking_wallets (Totals 100 0 1) + 1 /\
  total_staking_wallets (Totals 0 100 0) = total_staking_wallets (Totals 100 0 1) - 1.
Proof.
  split.
  - apply (proj1 (wallet_count_transition period 11 100 "hxb"%string 5
                    (Totals 100 0 1) (Totals 105 0 2) w10
                    (snd (set_stake period 11 100 "hxb"%string 5 (Totals 100 0 1) w10))
                    ltac:(vm_compute; reflexivity))).
    split; vm_compute; reflexivity.
  - apply (proj1 (proj2 (wallet_count_transition period 11 100 "hxa"%string 0
                    (Totals 100 0 1) (Totals 0 100 0) w10
                    (snd (set_stake period 11 100 "hxa"%string 0 (Totals 100 0 1) w10))
                    ltac:(vm_compute; reflexivity)))).
    split; vm_compute; reflexivity.
Defined.

Lemma unstaking_iff_unlock_height_witness :
  0 < unstaking_value (Wallet 40 60 14) <-> 0 < unlock_height (Wallet 40 60 14).
Proof.
  apply (unstaking_iff_unlock_height tid period period_pos
           11 [("hxa"%string, 40)] w10 w11 (Output 11 (Totals 40 60 1))
           w10_reachable ltac:(lia) ltac:(vm_compute; reflexivity) "hxa"%string).
  vm_compute. reflexivity.
Defined.

Lemma empty_block_still_commits_witness :
  exists (out : output) (w' : world),
    execute tid period 14 [] w13 = (Returned (Some out), w') /\
    out_height out = 14 /\
    prev_state_height (transform_cache_db w') = Some 14 /\
    forall a h,
      PyDict.get a (pending (transform_cache_db w13)) = Some h -> h <= 14 ->
      PyDict.get a (pending (transform_cache_db w')) = None /\
      exists r, wallets (transform_cache_db w13) !! a = Some r /\
                wallets (transform_cache_db w') !! a = Some (settle r).
Proof.
  apply (empty_block_still_commits tid period 14 w13 w13_reachable).
  right. vm_compute. reflexivity.
Defined.

Lemma wallet_snapshot_keeps_mapping_witness :
  RecentStakeWallets.execute "recent_stake_wallets" 11 (Some [("hxb"%string, 7)])
    (RecentStakeWallets.World
       (RecentStakeWallets.CacheDb (Some 10) (Some [("hxa"%string, 5)])) []) =
    (Returned (Some (RecentStakeWallets.Output 11 []
                       (RecentStakeWallets.Misc (Some [("hxa"%string, 5)]) 11))),
     RecentStakeWallets.World
       (RecentStakeWallets.CacheDb (Some 11) (Some [("hxa"%string, 5)])) []) /\
  RecentStakeWallets.execute "recent_stake_wallets" 11 (Some [])
    (RecentStakeWallets.World
       (RecentStakeWallets.CacheDb (Some 10) (Some [("hxa"%string, 5)])) []) =
    (Returned (Some (RecentStakeWallets.Output 11 [] (RecentStakeWallets.Misc None 11))),
     RecentStakeWallets.World
       (RecentStakeWallets.CacheDb (Some 11) (Some [("hxa"%string, 5)])) []).
Proof.
  split.
  - apply (proj1 (proj2 (wallet_snapshot_keeps_mapping "recent_stake_wallets" 11
                     (Some [("hxb"%string, 7)])
                     (RecentStakeWallets.World
                        (RecentStakeWallets.CacheDb (Some 10) (Some [("hxa"%string, 5)])) [])
                     ltac:(right; reflexivity)))).
    reflexivity.
  - apply (proj1 (proj2 (proj2 (wallet_snapshot_keeps_mapping "recent_stake_wallets" 11
                     (Some [])
                     (RecentStakeWallets.World
                        (RecentStakeWallets.CacheDb (Some 10) (Some [("hxa"%string, 5)])) [])
                     ltac:(right; reflexivity))) ltac:(reflexivity))).
Defined.

End ConcreteRuns.

(** * Further properties of the transforms *)

Module AccountsFacts.

Import StakeHistory Ledger LedgerFacts Accounts.

Lemma header_kept_refl w : header_kept w w.
Proof. unfold header_kept. done. Qed.

Lemma header_kept_trans w1 w2 w3 :
  header_kept w1 w2 -> header_kept w2 w3 -> header_kept w1 w3.
Proof.
  unfold header_kept. intros (? & ? & ? & ? & ? & ?) (? & ? & ? & ? & ? & ?).
  split_and!; congruence.
Qed.

Section Transform.

Variable transform_id : string.
Variable unlock_period : Z -> Z -> Z.

Lemma set_stake_wallets_header height T input_data :
  forall t w o w',
    set_stake_wallets unlock_period height T input_data t w = (o, w') ->
    header_kept w w'.
Proof.
  induction input_data as [|[addr cur] rest IH]; intros t w o w' Hrun.
  - inversion Hrun; subst. apply header_kept_refl.
  - simpl in Hrun.
    assert (Hone : forall o1 w1,
      set_stake unlock_period height T addr cur t w = (o1, w1) -> header_kept w w1).
    { intros o1 w1 H1.
      apply set_stake_inv in H1 as [(e & _ & -> & _) | (r & _ & -> & _)];
        [apply header_kept_refl | done]. }
    apply bind_inv in Hrun as [(t1 & w1 & H1 & Hrest) | (e & H1 & _)].
    + eapply header_kept_trans; [by eapply Hone | by eapply IH].
    + by eapply Hone.
Qed.

Lemma cleanup_expired_header height addrs d w o w' :
  cleanup_expired height addrs d w = (o, w') -> header_kept w w'.
Proof.
  intros Hrun.
  apply cleanup_expired_any in Hrun as [(? & ? & ? & ? & ? & ? & ?) _].
  unfold header_kept. done.
Qed.

(** A block that raises leaves the header as it was. *)
Lemma process_block_raised_header height input_data w e w' :
  process_block unlock_period height input_data w = (Raised e, w') ->
  header_kept w w'.
Proof.
  rewrite process_block_eq. simpl.
  destruct (cleanup_expired _ _ _ w) as [[d' | e1] w1] eqn:Hclean.
  - destruct (set_stake_wallets _ _ _ _ _ _) as [[t | e2] w2] eqn:Hloop; [done |].
    intros [= _ <-].
    apply cleanup_expired_header in Hclean. apply set_stake_wallets_header in Hloop.
    eapply header_kept_trans; [exact Hclean |].
    eapply header_kept_trans; [| exact Hloop]. done.
  - intros [= _ <-]. by eapply cleanup_expired_header.
Qed.

(** Whatever its outcome, a block touches neither chain state nor warehouse. *)
Lemma process_block_outside height input_data w o w' :
  process_block unlock_period height input_data w = (o, w') ->
  icon_state_db w' = icon_state_db w /\ warehouse w' = warehouse w.
Proof.
  rewrite process_block_eq. simpl.
  destruct (cleanup_expired _ _ _ w) as [[d' | e1] w1] eqn:Hclean.
  - apply cleanup_expired_header in Hclean as (_ & _ & _ & _ & Hi & Hw).
    destruct (set_stake_wallets _ _ _ _ _ _) as [[t | e2] w2] eqn:Hloop;
      apply set_stake_wallets_header in Hloop as (_ & _ & _ & _ & Hi2 & Hw2);
      simpl in Hi2, Hw2; intros [= _ <-]; simpl; split; congruence.
  - apply cleanup_expired_header in Hclean as (_ & _ & _ & _ & Hi & Hw).
    intros [= _ <-]. done.
Qed.

(** *** Calls that return *)



(** *** Addresses out of a block's reach *)

Lemma process_block_untouched a height input_data w o w' :
  a ∉ PyDict.keys input_data ->
  (forall h, PyDict.get a (pending (transform_cache_db w)) = Some h -> height < h) ->
  process_block unlock_period height input_data w = (o, w') ->
  wallets (transform_cache_db w') !! a = wallets (transform_cache_db w) !! a /\
  PyDict.get a (pending (transform_cache_db w')) =
    PyDict.get a (pending (transform_cache_db w)).
Proof.
  intros Hnotin Hlive. rewrite process_block_eq. simpl.
  set (d := pending (transform_cache_db w)) in *.
  destruct (cleanup_expired _ _ _ w) as [[d' | e] w1] eqn:Hclean.
  - destruct (cleanup_expired_returned _ _ _ _ _ _ Hclean) as (_ & Hkeep & _).
    destruct (Hkeep a) as [Hg1 Hw1].
    { intros h Hg Hle. apply Hlive in Hg. lia. }
    destruct (set_stake_wallets _ _ _ _ _ _) as [[t | e] w2] eqn:Hloop;
      intros [= _ <-];
      destruct (set_stake_wallets_untouched _ a _ _ _ _ _ _ _ Hnotin Hloop)
        as (Hw2 & Hg2 & _);
      unfold pending in Hg2; simpl in Hw2, Hg2; unfold commit, pending; simpl;
      split; congruence.
  - intros [= _ <-].
    pose proof (cleanup_expired_any _ _ _ _ _ _ Hclean)
      as [(_ & _ & _ & _ & Hu & _) Hpt].
    split.
    + destruct (Hpt a) as [Heq | (r & h & _ & Hg & Hle & _)]; [done |].
      apply Hlive in Hg. lia.
    + unfold pending. by rewrite Hu.
Qed.

(** *** Predicates on the stored records *)

Lemma cleanup_expired_all_records (P : wallet -> Prop) height addrs d w o w' :
  (forall r, P r -> P (settle r)) ->
  all_records P (transform_cache_db w) ->
  cleanup_expired height addrs d w = (o, w') ->
  all_records P (transform_cache_db w').
Proof.
  intros Hsettle Hall Hrun a r Hr.
  apply cleanup_expired_any in Hrun as [_ Hpt].
  destruct (Hpt a) as [Heq | (r0 & h & Hr0 & _ & _ & Hset)].
  - rewrite Heq in Hr. by eapply Hall.
  - rewrite Hset in Hr. inversion Hr; subst. apply Hsettle. by eapply Hall.
Qed.

Lemma set_stake_wallets_all_records (P : wallet -> Prop) height T input_data :
  P (Wallet 0 0 0) ->
  (forall supply prev a cur r,
      (a, cur) ∈ input_data -> P prev ->
      transition unlock_period height T supply prev cur r -> P r) ->
  forall t w o w',
    all_records P (transform_cache_db w) ->
    set_stake_wallets unlock_period height T input_data t w = (o, w') ->
    all_records P (transform_cache_db w').
Proof.
  intros Hzero.
  induction input_data as [|[addr cur] rest IH]; intros Hstep t w o w' Hall Hrun.
  - inversion Hrun; subst. done.
  - simpl in Hrun.
    assert (Hone : forall o1 w1,
      set_stake unlock_period height T addr cur t w = (o1, w1) ->
      all_records P (transform_cache_db w1)).
    { intros o1 w1 H1.
      apply set_stake_inv in H1 as [(e & _ & -> & _) | (r & Htr & -> & _)]; [done |].
      intros a r'. unfold store. simpl.
      destruct (decide (addr = a)) as [<- | Hne].
      - rewrite lookup_insert_eq. intros [= <-].
        eapply Hstep; [left | | exact Htr].
        unfold prior.
        destruct (wallets (transform_cache_db w) !! addr) as [r0 |] eqn:Hr0;
          [by eapply Hall | exact Hzero].
      - rewrite lookup_insert_ne by done. apply Hall. }
    assert (Hstep' : forall supply prev a cur0 r,
      (a, cur0) ∈ rest -> P prev ->
      transition unlock_period height T supply prev cur0 r -> P r).
    { intros supply prev a cur0 r Hin. eapply Hstep. by right. }
    apply bind_inv in Hrun as [(t1 & w1 & H1 & Hrest) | (e & H1 & _)].
    + eapply (IH Hstep'); [| exact Hrest]. by eapply Hone.
    + by eapply Hone.
Qed.

Lemma execute_all_records (P : wallet -> Prop) height input_data w :
  P (Wallet 0 0 0) ->
  (forall r, P r -> P (settle r)) ->
  (forall T supply prev a cur r,
      (a, cur) ∈ input_data -> P prev ->
      transition unlock_period height T supply prev cur r -> P r) ->
  all_records P (transform_cache_db w) ->
  all_records P (transform_cache_db
                   (snd (execute transform_id unlock_period height input_data w))).
Proof.
  intros Hzero Hsettle Hstep Hall. rewrite execute_eq.
  assert (Hblock : forall o w',
    process_block unlock_period height input_data w = (o, w') ->
    all_records P (transform_cache_db w')).
  { intros o w'. rewrite process_block_eq. simpl.
    destruct (cleanup_expired _ _ _ w) as [[d' | e] w1] eqn:Hclean.
    - pose proof (cleanup_expired_all_records P _ _ _ _ _ _ Hsettle Hall Hclean) as Hall1.
      destruct (set_stake_wallets _ _ _ _ _ _) as [[t | e] w2] eqn:Hloop;
        intros [= _ <-];
        eapply set_stake_wallets_all_records in Hloop; try done; eauto.
    - intros [= _ <-]. by eapply cleanup_expired_all_records. }
  destruct (prev_state_height (transform_cache_db w)) as [p |].
  - destruct (p =? height - 1); [| done].
    destruct (process_block _ _ _ w) as [o w'] eqn:Hrun. by eapply Hblock.
  - destruct (process_block _ _ _ w) as [o w'] eqn:Hrun. by eapply Hblock.
Qed.

(** *** Sums over the records *)

Lemma store_sum (f : wallet -> Z) addr r w :
  f (Wallet 0 0 0) = 0 ->
  map_fold (fun _ r acc => f r + acc) 0 (wallets (transform_cache_db (store addr r w))) =
    map_fold (fun _ r acc => f r + acc) 0 (wallets (transform_cache_db w))
    - f (prior addr w) + f r.
Proof.
  intros Hzero. unfold store, prior. simpl. rewrite sum_insert.
  destruct (wallets (transform_cache_db w) !! addr); simpl; lia.
Qed.

Lemma cleanup_expired_sum (f : wallet -> Z) height addrs :
  (forall r, f (settle r) = f r) ->
  forall d w o w',
    cleanup_expired height addrs d w = (o, w') ->
    map_fold (fun _ r acc => f r + acc) 0 (wallets (transform_cache_db w')) =
      map_fold (fun _ r acc => f r + acc) 0 (wallets (transform_cache_db w)).
Proof.
  intros Hf.
  induction addrs as [|addr addrs IH]; intros d w o w' Hrun; simpl in Hrun.
  - inversion Hrun; subst. done.
  - destruct (PyDict.get addr d) as [h0 |]; [| inversion Hrun; subst; done].
    destruct (h0 <=? height); [| by eapply IH].
    unfold bind, cache_get, gets in Hrun.
    destruct (wallets (transform_cache_db w) !! addr) as [r0 |] eqn:Hr0;
      [| inversion Hrun; subst; done].
    simpl in Hrun. apply IH in Hrun. rewrite Hrun.
    pose proof (Hf r0) as Hf0. unfold settle in Hf0.
    simpl. rewrite sum_insert, Hr0. simpl. lia.
Qed.



Lemma set_stake_wallets_count height T input_data :
  forall t w t' w',
    all_records (fun r => 0 <= stake_value r) (transform_cache_db w) ->
    Forall (fun p => 0 <= p.2) input_data ->
    set_stake_wallets unlock_period height T input_data t w = (Returned t', w') ->
    total_staking_wallets t' - count_staking_wallets (transform_cache_db w') =
      total_staking_wallets t - count_staking_wallets (transform_cache_db w).
Proof.
  induction input_data as [|[addr cur] rest IH]; intros t w t' w' Hall Hpos Hrun.
  - inversion Hrun; subst. done.
  - simpl in Hrun. apply Forall_cons in Hpos as [Hcur Hpos]. simpl in Hcur.
    apply bind_inv in Hrun as [(t1 & w1 & Hone & Hrest) | (e & _ & He)];
      [| inversion He].
    apply set_stake_inv in Hone as [(e & He & _) | (r & Htr & -> & Ht)];
      [inversion He |].
    assert (Hr : stake_value r = cur) by (destruct Htr; done).
    assert (Hprior : 0 <= stake_value (prior addr w)).
    { unfold prior.
      destruct (wallets (transform_cache_db w) !! addr) as [r0 |] eqn:Hr0; simpl;
        [by eapply (Hall addr) | lia]. }
    apply IH in Hrest; [| | exact Hpos].
    2:{ intros a r'. unfold store. simpl.
        destruct (decide (addr = a)) as [<- | Hne].
        - rewrite lookup_insert_eq. intros [= <-]. lia.
        - rewrite lookup_insert_ne by done. apply Hall. }
    rewrite Hrest. clear Hrest.
    unfold count_staking_wallets.
    rewrite (store_sum (fun r => if 0 <? stake_value r then 1 else 0)) by done.
    inversion Ht; subst t1. simpl. rewrite Hr. unfold wallet_count_delta.
    destruct (Z.eqb_spec (stake_value (prior addr w)) 0),
      (Z.ltb_spec 0 cur), (Z.ltb_spec 0 (stake_value (prior addr w))),
      (Z.eqb_spec cur 0); simpl; lia.
Qed.

(** *** Pending entries after the cleanup *)

Lemma put_unstaking_nothing_expires height w d' w' :
  cleanup_expired height (PyDict.keys (pending (transform_cache_db w)))
    (pending (transform_cache_db w)) w = (Returned d', w') ->
  nothing_expires height (transform_cache_db (snd (put_unstaking d' w'))).
Proof.
  intros Hrun a h. unfold pending at 1. simpl. intros Hg'.
  pose proof (cleanup_expired_subset _ _ _ _ Hrun a h Hg') as Hg.
  destruct (decide (h <= height)) as [Hle | Hgt]; [| lia].
  apply cleanup_expired_returned in Hrun as (_ & _ & Hdrop).
  destruct (Hdrop a h) as [Hnone _]; [done | done | | congruence].
  apply PyDictFacts.get_is_Some. by rewrite Hg.
Qed.

Section PositivePeriod.

Hypothesis unlock_period_pos : forall t s, 0 < unlock_period t s.

Lemma set_stake_wallets_nothing_expires height T input_data :
  forall t w o w',
    0 <= height ->
    linked (transform_cache_db w) ->
    nothing_expires height (transform_cache_db w) ->
    set_stake_wallets unlock_period height T input_data t w = (o, w') ->
    nothing_expires height (transform_cache_db w').
Proof.
  induction input_data as [|[addr cur] rest IH]; intros t w o w' Hh Hlink Hlive Hrun.
  - inversion Hrun; subst. done.
  - simpl in Hrun.
    assert (Hone : forall o1 w1,
      set_stake unlock_period height T addr cur t w = (o1, w1) ->
      nothing_expires height (transform_cache_db w1)).
    { intros o1 w1 H1.
      apply set_stake_inv in H1 as [(e & _ & -> & _) | (r & Htr & -> & _)]; [done |].
      intros a h. unfold store, pending. simpl.
      destruct (unlock_height r =? 0) eqn:E; [apply Hlive |].
      apply Z.eqb_neq in E. simpl.
      destruct (decide (addr = a)) as [<- | Hne].
      - rewrite PyDictFacts.get_set_eq. intros [= <-].
        destruct Htr as [s Hlt Hs | Hle Hpos Hrest | Hle Hzero]; simpl in *.
        + pose proof (unlock_period_pos T s). lia.
        + destruct (wallets (transform_cache_db w) !! addr) as [r0 |] eqn:Hr0.
          * rewrite (prior_lookup _ _ _ Hr0) in *.
            eapply Hlive. by eapply unstaking_is_pending.
          * rewrite (prior_unseen _ _ Hr0) in Hpos. simpl in Hpos. lia.
        + done.
      - rewrite PyDictFacts.get_set_ne by done. apply Hlive. }
    apply bind_inv in Hrun as [(t1 & w1 & H1 & Hrest) | (e & H1 & _)].
    + eapply IH; [done | | | exact Hrest].
      * by eapply (set_stake_linked unlock_period unlock_period_pos).
      * by eapply Hone.
    + by eapply Hone.
Qed.

End PositivePeriod.

(** *** Blocks that lower no stake *)


End Transform.

End AccountsFacts.

Section LedgerCalls.

Import StakeHistory Ledger LedgerFacts Accounts AccountsFacts.

Variable transform_id : string.
Variable unlock_period : Z -> Z -> Z.

(** X1. A call of the staking-ledger [execute] commits only as the first
    block ever or at the height that follows the stored one; when it
    commits, the stored last state height is that height, the output
    carries it, and the three stored totals are those of the output. *)
Theorem committed_block_follows_stored_height :
  forall (height : Z) (input_data : list (address * Z)) (w w' : world) (out : output),
    execute transform_id unlock_period height input_data w = (Returned (Some out), w') ->
    (prev_state_height (transform_cache_db w) = None \/
     prev_state_height (transform_cache_db w) = Some (height - 1)) /\
    prev_state_height (transform_cache_db w') = Some height /\
    out_height out = height /\
    prev_total_staking (transform_cache_db w') = Some (total_staking (data out)) /\
    prev_total_unstaking (transform_cache_db w') = Some (total_unstaking (data out)) /\
    prev_total_staking_wallets (transform_cache_db w') =
      Some (total_staking_wallets (data out)).
Proof.
  intros height input_data w w' out. rewrite execute_eq.
  assert (Hblock :
    process_block unlock_period height input_data w = (Returned (Some out), w') ->
    prev_state_height (transform_cache_db w') = Some height /\
    out_height out = height /\
    prev_total_staking (transform_cache_db w') = Some (total_staking (data out)) /\
    prev_total_unstaking (transform_cache_db w') = Some (total_unstaking (data out)) /\
    prev_total_staking_wallets (transform_cache_db w') =
      Some (total_staking_wallets (data out))).
  { rewrite process_block_eq. simpl.
    destruct (cleanup_expired _ _ _ w) as [[d' | e] w1]; [| done].
    destruct (set_stake_wallets _ _ _ _ _ _) as [[t | e] w2]; [| done].
    intros [= <- <-]. done. }
  destruct (prev_state_height (transform_cache_db w)) as [p |].
  - destruct (p =? height - 1) eqn:E; [| intros H; inversion H].
    apply Z.eqb_eq in E. subst p. intros H. split; [by right | auto].
  - intros H. split; [by left | auto].
Qed.

(** X2. When the staking-ledger [execute] raises, the stored last state
    height and the three stored totals are those of before the call, and
    neither the chain state nor the warehouse log has changed: only
    per-address records and the pending-unlock set can differ. *)
Theorem raised_call_keeps_height_and_totals :
  forall (height : Z) (input_data : list (address * Z)) (w w' : world) (e : exn),
    execute transform_id unlock_period height input_data w = (Raised e, w') ->
    header_kept w w'.
Proof.
  intros height input_data w w' e. rewrite execute_eq.
  destruct (prev_state_height (transform_cache_db w)) as [p |].
  - destruct (p =? height - 1); [| intros H; inversion H].
    apply process_block_raised_header.
  - apply process_block_raised_header.
Qed.

(** X3. Whatever the outcome of the staking-ledger [execute], the chain
    state is left alone and the warehouse log grows by exactly the resync
    request of a sequencing fault: one request carrying the stored height
    when a stored height exists and is not [height - 1], nothing
    otherwise. *)
Theorem execute_sends_only_the_resync_request :
  forall (height : Z) (input_data : list (address * Z)) (w : world),
    let w' := snd (execute transform_id unlock_period height input_data w) in
    icon_state_db w' = icon_state_db w /\
    warehouse w' =
      warehouse w ++ resync_requests transform_id height (transform_cache_db w).
Proof.
  intros height input_data w. simpl. rewrite execute_eq. unfold resync_requests.
  destruct (prev_state_height (transform_cache_db w)) as [p |].
  - destruct (p =? height - 1); [| done].
    destruct (process_block _ _ _ w) as [o w'] eqn:Hrun.
    apply process_block_outside in Hrun as [Hi Hw]. simpl.
    by rewrite Hi, Hw, app_nil_r.
  - destruct (process_block _ _ _ w) as [o w'] eqn:Hrun.
    apply process_block_outside in Hrun as [Hi Hw]. simpl.
    by rewrite Hi, Hw, app_nil_r.
Qed.

End LedgerCalls.

Section LedgerBlocks.

Import StakeHistory Ledger LedgerFacts Accounts AccountsFacts.

Variable transform_id : string.
Variable unlock_period : Z -> Z -> Z.


(** X5. A call of the staking-ledger [execute], whatever its outcome,
    leaves alone every address that is not in the payload and has no
    pending-unlock entry due at that height: its record and its pending
    entry are as before. *)
Theorem unmentioned_wallet_is_untouched :
  forall (height : Z) (input_data : list (address * Z)) (w : world) (a : address),
    a ∉ PyDict.keys input_data ->
    (forall h, PyDict.get a (pending (transform_cache_db w)) = Some h -> height < h) ->
    let w' := snd (execute transform_id unlock_period height input_data w) in
    wallets (transform_cache_db w') !! a = wallets (transform_cache_db w) !! a /\
    PyDict.get a (pending (transform_cache_db w')) =
      PyDict.get a (pending (transform_cache_db w)).
Proof.
  intros height input_data w a Hnotin Hlive. simpl. rewrite execute_eq.
  destruct (prev_state_height (transform_cache_db w)) as [p |].
  - destruct (p =? height - 1); [| done].
    destruct (process_block _ _ _ w) as [o w'] eqn:Hrun.
    by eapply process_block_untouched.
  - destruct (process_block _ _ _ w) as [o w'] eqn:Hrun.
    by eapply process_block_untouched.
Qed.



(** X8. For stake values that are never negative, [total_staking_wallets]
    counts the wallets that stake: if every stored stake is [>= 0], the
    stored count is the number of records with a positive stake and the
    payload holds no negative value, the same is true after a call that
    returns, and a committed output reports that number. *)
Theorem total_staking_wallets_counts_stakers :
  forall (height : Z) (input_data : list (address * Z)) (w w' : world)
         (o : option output),
    all_records (fun r => 0 <= stake_value r) (transform_cache_db w) ->
    wallets_counted (transform_cache_db w) ->
    Forall (fun p => 0 <= p.2) input_data ->
    execute transform_id unlock_period height input_data w = (Returned o, w') ->
    all_records (fun r => 0 <= stake_value r) (transform_cache_db w') /\
    wallets_counted (transform_cache_db w') /\
    forall out, o = Some out ->
      total_staking_wallets (data out) = count_staking_wallets (transform_cache_db w').
Proof.
  intros height input_data w w' o Hall Hcount Hpos Hexec.
  split.
  { replace w' with (snd (execute transform_id unlock_period height input_data w))
      by (by rewrite Hexec).
    apply execute_all_records; [simpl; lia | done | | done].
    intros T supply prev a cur r Hin _ Htr.
    assert (stake_value r = cur) as -> by (destruct Htr; done).
    rewrite Forall_forall in Hpos. apply (Hpos (a, cur)). done. }
  rewrite execute_eq in Hexec.
  assert (Hblock :
    process_block unlock_period height input_data w = (Returned o, w') ->
    wallets_counted (transform_cache_db w') /\
    forall out, o = Some out ->
      total_staking_wallets (data out) = count_staking_wallets (transform_cache_db w')).
  { rewrite process_block_eq. cbv zeta.
    destruct (cleanup_expired _ _ _ w) as [[d' | e] w1] eqn:Hclean; [| done].
    destruct (set_stake_wallets _ _ _ _ _ _) as [[t | e] w2] eqn:Hloop; [| done].
    intros [= <- <-].
    pose proof (cleanup_expired_all_records (fun r => 0 <= stake_value r)
                  _ _ _ _ _ _ ltac:(done) Hall Hclean) as Hall1.
    pose proof (cleanup_expired_sum (fun r => if 0 <? stake_value r then 1 else 0)
                  height _ ltac:(done) _ _ _ _ Hclean) as Hsum.
    apply set_stake_wallets_count in Hloop; [| exact Hall1 | exact Hpos].
    unfold wallets_counted, count_staking_wallets in *. simpl in *.
    split; [lia |]. intros out [= <-]. simpl. lia. }
  destruct (prev_state_height (transform_cache_db w)) as [p |]; [| auto].
  destruct (p =? height - 1); [auto |].
  inversion Hexec; subst. split; [done |]. intros out H. inversion H.
Qed.


Section PositivePeriod.

Hypothesis unlock_period_pos : forall t s, 0 < unlock_period t s.

(** X9. On every reachable cache, every stored record has an unstaking
    value and an unlock height that are not negative. *)
Theorem stored_records_are_nonnegative :
  forall (w : world),
    reachable transform_id unlock_period w ->
    forall a r,
      wallets (transform_cache_db w) !! a = Some r ->
      0 <= unstaking_value r /\ 0 <= unlock_height r.
Proof.
  intros w Hreach.
  change (all_records (fun r => 0 <= unstaking_value r /\ 0 <= unlock_height r)
            (transform_cache_db w)).
  induction Hreach as [supply | w height input_data _ IH Hh | w supply _ IH].
  - intros a r. simpl. by rewrite lookup_empty.
  - apply execute_all_records; [simpl; lia | simpl; lia | | exact IH].
    intros T supply prev a cur r _ [Hu Hl] Htr.
    destruct Htr as [s Hlt Hs | Hle Hpos Hrest | Hle Hzero]; simpl.
    + pose proof (unlock_period_pos T s).
      destruct (0 <? unstaking_value prev) eqn:E; [apply Z.ltb_lt in E |]; lia.
    + lia.
    + lia.
  - exact IH.
Qed.

(** X10. After a committed block on a reachable cache, no pending-unlock
    entry is due: every entry of the stored set has an unlock height
    above the committed height. *)
Theorem committed_block_leaves_no_due_entry :
  forall (height : Z) (input_data : list (address * Z)) (w w' : world) (out : output),
    reachable transform_id unlock_period w ->
    0 <= height ->
    execute transform_id unlock_period height input_data w = (Returned (Some out), w') ->
    nothing_expires height (transform_cache_db w').
Proof.
  intros height input_data w w' out Hreach Hh Hexec.
  apply (reachable_linked _ _ unlock_period_pos) in Hreach.
  rewrite execute_eq in Hexec.
  assert (Hblock :
    process_block unlock_period height input_data w = (Returned (Some out), w')).
  { destruct (prev_state_height (transform_cache_db w)) as [p |]; [| done].
    destruct (p =? height - 1); [done | inversion Hexec]. }
  clear Hexec. rewrite process_block_eq in Hblock. cbv zeta in Hblock.
  destruct (cleanup_expired _ _ _ w) as [[d' | e] w1] eqn:Hclean; [| inversion Hblock].
  destruct (set_stake_wallets _ _ _ _ _ _) as [[t | e] w2] eqn:Hloop;
    [| inversion Hblock].
  inversion Hblock; subst. clear Hblock.
  eapply (set_stake_wallets_nothing_expires unlock_period unlock_period_pos) in Hloop.
  - exact Hloop.
  - exact Hh.
  - by eapply put_unstaking_linked.
  - by eapply put_unstaking_nothing_expires.
Qed.

End PositivePeriod.

End LedgerBlocks.

Section LedgerEdges.

Import StakeHistory Ledger LedgerFacts Accounts AccountsFacts.

Variable transform_id : string.
Variable unlock_period : Z -> Z -> Z.

(** X14. On every reachable cache the pending-unlock set has distinct
    addresses and every one of them has a stored record, so the expiry
    cleanup always finds the record it rewrites. *)
Theorem pending_entries_have_records :
  forall (w : world),
    reachable transform_id unlock_period w ->
    NoDup (PyDict.keys (pending (transform_cache_db w))) /\
    forall a h,
      PyDict.get a (pending (transform_cache_db w)) = Some h ->
      is_Some (wallets (transform_cache_db w) !! a).
Proof.
  intros w Hreach. destruct (reachable_indexed _ _ _ Hreach) as [Hnd Hhas]. done.
Qed.




End LedgerEdges.

Section SnapshotCalls.

Import RecentStakeWallets SnapshotFacts.

Variable transform_id : string.

(** X12. A call of the wallet-snapshot [execute] commits only as the first
    block ever or at the height that follows the stored one; when it
    commits, the stored last state height is that height, the output and
    its [misc] part carry it, and no request is sent to the warehouse. *)
Theorem snapshot_commit_follows_stored_height :
  forall (height : Z) (input_data : option (PyDict.t Z)) (w w' : world) (out : output),
    execute transform_id height input_data w = (Returned (Some out), w') ->
    (last_state_height (transform_cache_db w) = None \/
     last_state_height (transform_cache_db w) = Some (height - 1)) /\
    last_state_height (transform_cache_db w') = Some height /\
    out_height out = height /\
    misc_height (out_misc out) = height /\
    warehouse w' = warehouse w.
Proof.
  intros height input_data w w' out. rewrite snapshot_execute_eq.
  assert (Hblock :
    process_block height input_data [] w = (Returned (Some out), w') ->
    last_state_height (transform_cache_db w') = Some height /\
    out_height out = height /\
    misc_height (out_misc out) = height /\
    warehouse w' = warehouse w).
  { rewrite snapshot_process_block_eq. cbv zeta.
    destruct (truthy input_data); intros [= <- <-]; done. }
  destruct (last_state_height (transform_cache_db w)) as [p |].
  - destruct (p =? height - 1) eqn:E; [| intros H; inversion H].
    apply Z.eqb_eq in E. subst p. intros H. split; [by right | auto].
  - intros H. split; [by left | auto].
Qed.

(** X13. The wallet-snapshot transform never records a wallet: on every
    cache reachable from the empty one the cached mapping of recent
    wallets is empty, and the [misc] output of a committed call carries
    either [None] or the empty mapping, whatever the payloads were. *)
Theorem snapshot_mapping_stays_empty :
  forall (w : world),
    SnapshotRuns.reachable transform_id w ->
    default [] (recent_stake_wallets (transform_cache_db w)) = [] /\
    forall (height : Z) (input_data : option (PyDict.t Z)) (out : output) (w' : world),
      execute transform_id height input_data w = (Returned (Some out), w') ->
      misc_wallets (out_misc out) = None \/ misc_wallets (out_misc out) = Some [].
Proof.
  intros w Hreach.
  assert (Hempty : default [] (recent_stake_wallets (transform_cache_db w)) = []).
  { induction Hreach as [| w height input_data _ IH]; [done |].
    rewrite snapshot_execute_eq, snapshot_process_block_eq. cbv zeta. rewrite IH.
    destruct (last_state_height (transform_cache_db w)) as [p |];
      [destruct (p =? height - 1) |];
      try exact IH; destruct (truthy input_data); simpl; done. }
  split; [exact Hempty |].
  intros height input_data out w'.
  rewrite snapshot_execute_eq, snapshot_process_block_eq. cbv zeta. rewrite Hempty.
  assert (Hblock :
    (if truthy input_data
     then (Returned (Some (Output height [] (Misc (Some []) height))),
           snd (batch_write
                  ([] ++ [PutRecentStakeWallets []; PutLastStateHeight height]) w))
     else (Returned (Some (Output height [] (Misc None height))),
           snd (batch_write ([] ++ [PutLastStateHeight height]) w))) =
    (Returned (Some out), w') ->
    misc_wallets (out_misc out) = None \/ misc_wallets (out_misc out) = Some []).
  { destruct (truthy input_data); intros [= <- _]; simpl; auto. }
  destruct (last_state_height (transform_cache_db w)) as [p |]; [| exact Hblock].
  destruct (p =? height - 1); [exact Hblock | intros H; inversion H].
Qed.

End SnapshotCalls.

(** ** The further properties on concrete runs *)

Section FurtherRuns.

Import StakeHistory Ledger LedgerFacts Accounts AccountsFacts Scenario.


Lemma committed_block_follows_stored_height_witness :
  (prev_state_height (transform_cache_db w10) = None \/
   prev_state_height (transform_cache_db w10) = Some (11 - 1)) /\
  prev_state_height (transform_cache_db w11) = Some 11 /\
  out_height (Output 11 (Totals 40 60 1)) = 11 /\
  prev_total_staking (transform_cache_db w11) =
    Some (total_staking (data (Output 11 (Totals 40 60 1)))) /\
  prev_total_unstaking (transform_cache_db w11) =
    Some (total_unstaking (data (Output 11 (Totals 40 60 1)))) /\
  prev_total_staking_wallets (transform_cache_db w11) =
    Some (total_staking_wallets (data (Output 11 (Totals 40 60 1)))).
Proof.
  apply (committed_block_follows_stored_height tid period 11 [("hxa"%string, 40)]
           w10 w11 (Output 11 (Totals 40 60 1))).
  vm_compute. reflexivity.
Defined.

Lemma raised_call_keeps_height_and_totals_witness :
  header_kept w10_offline w11_failed.
Proof.
  apply (raised_call_keeps_height_and_totals tid period 11 block11
           w10_offline w11_failed TypeError).
  vm_compute. reflexivity.
Defined.


Lemma unmentioned_wallet_is_untouched_witness :
  wallets (transform_cache_db
             (snd (execute tid period 12 [("hxb"%string, 5)] w11))) !! "hxa"%string =
    wallets (transform_cache_db w11) !! "hxa"%string /\
  PyDict.get "hxa"
    (pending (transform_cache_db (snd (execute tid period 12 [("hxb"%string, 5)] w11)))) =
    PyDict.get "hxa" (pending (transform_cache_db w11)).
Proof.
  apply (unmentioned_wallet_is_untouched tid period 12 [("hxb"%string, 5)] w11
           "hxa"%string).
  - unfold PyDict.keys. simpl. intros Hin.
    inversion Hin as [| ? ? ? Hin']; subst. inversion Hin'.
  - intros h Hg. vm_compute in Hg. inversion Hg; subst. lia.
Defined.



Lemma total_staking_wallets_counts_stakers_witness :
  all_records (fun r => 0 <= stake_value r) (transform_cache_db w10) /\
  wallets_counted (transform_cache_db w10) /\
  forall out, Some (Output 10 (Totals 100 0 1)) = Some out ->
    total_staking_wallets (data out) = count_staking_wallets (transform_cache_db w10).
Proof.
  apply (total_staking_wallets_counts_stakers tid period 10 [("hxa"%string, 100)]
           w0 w10 (Some (Output 10 (Totals 100 0 1)))).
  - intros a r. simpl. by rewrite lookup_empty.
  - vm_compute. reflexivity.
  - apply Forall_cons_2; [simpl; lia | apply Forall_nil_2].
  - vm_compute. reflexivity.
Defined.


Lemma stored_records_are_nonnegative_witness :
  0 <= unstaking_value (Wallet 40 60 14) /\ 0 <= unlock_height (Wallet 40 60 14).
Proof.
  apply (stored_records_are_nonnegative tid period period_pos w11 w11_reachable
           "hxa"%string).
  vm_compute. reflexivity.
Defined.

Lemma committed_block_leaves_no_due_entry_witness :
  nothing_expires 14 (transform_cache_db w14).
Proof.
  apply (committed_block_leaves_no_due_entry tid period period_pos 14 [] w13 w14
           (Output 14 (Totals 40 60 1)) w13_reachable).
  - lia.
  - vm_compute. reflexivity.
Defined.

Lemma snapshot_commit_follows_stored_height_witness :
  (RecentStakeWallets.last_state_height (RecentStakeWallets.CacheDb (Some 10) None) = None \/
   RecentStakeWallets.last_state_height (RecentStakeWallets.CacheDb (Some 10) None) =
     Some (11 - 1)) /\
  RecentStakeWallets.last_state_height (RecentStakeWallets.CacheDb (Some 11) (Some [])) =
    Some 11 /\
  RecentStakeWallets.out_height
    (RecentStakeWallets.Output 11 [] (RecentStakeWallets.Misc (Some []) 11)) = 11 /\
  RecentStakeWallets.misc_height (RecentStakeWallets.Misc (Some []) 11) = 11 /\
  @nil rpc_call = [].
Proof.
  apply (snapshot_commit_follows_stored_height "recent_stake_wallets" 11
           (Some [("hxa"%string, 7)])
           (RecentStakeWallets.World (RecentStakeWallets.CacheDb (Some 10) None) [])
           (RecentStakeWallets.World (RecentStakeWallets.CacheDb (Some 11) (Some [])) [])
           (RecentStakeWallets.Output 11 [] (RecentStakeWallets.Misc (Some []) 11))).
  reflexivity.
Defined.

Lemma snapshot_mapping_stays_empty_witness :
  default [] (RecentStakeWallets.recent_stake_wallets
                (RecentStakeWallets.transform_cache_db
                   (snd (RecentStakeWallets.execute "recent_stake_wallets" 10
                           (Some [("hxa"%string, 7)])
                           (RecentStakeWallets.World RecentStakeWallets.empty_db []))))) = [].
Proof.
  apply (snapshot_mapping_stays_empty "recent_stake_wallets").
  apply SnapshotRuns.reachable_execute. apply SnapshotRuns.reachable_start.
Defined.

Lemma pending_entries_have_records_witness :
  NoDup (PyDict.keys (pending (transform_cache_db w11))) /\
  forall a h,
    PyDict.get a (pending (transform_cache_db w11)) = Some h ->
    is_Some (wallets (transform_cache_db w11) !! a).
Proof.
  apply (pending_entries_have_records tid period w11 w11_reachable).
Defined.




End FurtherRuns.
